(** * Event-planning assistant: extraction, menu selection, prompt composition

    A shallow embedding of the logic of [ai_engine.py], [firebase_config.py]
    and of the message-handling branch of [app.py], with the properties the
    specification states about them.

    Conventions of the embedding.
    - A Python [str] is a [string]; one [ascii] stands for one character.
      [str.lower], [\d] and [\s] are modelled on the ASCII range; the
      characters above 127 are left alone by [lower] and belong to no class.
      The few non-ASCII characters of the canned replies appear as their
      UTF-8 bytes.
    - A Python [dict] read and written by key is a [gmap string pyval].
    - [int(...)] is exact decimal parsing into [Z]; it fails ([None]) on an
      empty or non-decimal argument, which is Python's [ValueError].  The
      interpreter's optional cap on the number of digits [int] accepts is an
      interpreter setting and is not part of the embedding.
    - Calls to Streamlit widgets ([st.error], [st.spinner], [st.rerun]) only
      draw on the page and are left out. *)

From Stdlib Require Import ZArith Ascii String List Bool Lia.
From Stdlib Require DecimalString DecimalNat.
From stdpp Require Import base option list strings gmap sorting.

(** ** Python values stored in the dictionaries of the program *)

Inductive pyval : Type :=
| PNone
| PInt (n : Z)
| PStr (s : string)
| PList (l : list string).

#[global] Instance pyval_eq_dec : EqDecision pyval.
Proof. solve_decision. Defined.

(** [d.get(k)]: the stored value, [None] when the key is missing. *)
Definition dict_get (d : gmap string pyval) (k : string) : pyval :=
  default PNone (d !! k).

(** [d.get(k, [])] read as a list of strings, the only kind of list the
    program stores; a missing key or a [None] gives the empty list. *)
Definition dict_get_list (d : gmap string pyval) (k : string) : list string :=
  match d !! k with
  | Some (PList l) => l
  | _ => []
  end.

(** [d.update(e)]: every key of [e] is written into [d], the other keys of
    [d] stay. *)
Definition dict_update (d e : gmap string pyval) : gmap string pyval := e ∪ d.

(** ** Strings *)

Module Str.

Definition is_upper (c : ascii) : bool :=
  let n := N_of_ascii c in (65 <=? n)%N && (n <=? 90)%N.

Definition lower_char (c : ascii) : ascii :=
  if is_upper c then ascii_of_N (N_of_ascii c + 32) else c.

(** [s.lower()] *)
Fixpoint lower (s : string) : string :=
  match s with
  | EmptyString => EmptyString
  | String c s' => String (lower_char c) (lower s')
  end.

(** [c.isdigit()], the class [\d] *)
Definition is_digit (c : ascii) : bool :=
  let n := N_of_ascii c in (48 <=? n)%N && (n <=? 57)%N.

(** [c.isspace()], the class [\s]: tab, line feed, vertical tab, form
    feed, carriage return, the four separators 28 to 31 and the space. *)
Definition is_space (c : ascii) : bool :=
  let n := N_of_ascii c in
  ((9 <=? n)%N && (n <=? 13)%N) || ((28 <=? n)%N && (n <=? 32)%N).

(** [needle in hay] on strings: [needle] starts at some position of
    [hay]. *)
Fixpoint contains (hay needle : string) : bool :=
  String.prefix needle hay
  || match hay with
     | EmptyString => false
     | String _ hay' => contains hay' needle
     end.

(** [any(w in hay for w in words)] *)
Definition any_in (words : list string) (hay : string) : bool :=
  existsb (contains hay) words.

(** [sep.join(parts)] *)
Definition join (sep : string) (parts : list string) : string :=
  String.concat sep parts.

(** [s[:n]] for [0 <= n] *)
Definition take (n : nat) (s : string) : string := String.substring 0 n s.

(** [s.strip()]: leading and trailing white space removed.  The program
    only tests the result for emptiness, which holds exactly when every
    character of [s] is white space. *)
Fixpoint all_space (s : string) : bool :=
  match s with
  | EmptyString => true
  | String c s' => is_space c && all_space s'
  end.

(** Declarative reading of [contains]. *)
Definition occurs_in (needle hay : string) : Prop :=
  exists pre post, hay = pre +:+ needle +:+ post.

End Str.

(** ** Fallback responses ([AIEventAssistant._get_fallback_response]) *)

Definition nl : string := String (ascii_of_N 10) EmptyString.

Definition fallback_greeting : string :=
  "Hello! I'm your Event Planning Assistant! 🎉 I'd love to help you create an amazing event. What type of celebration are you planning?".

Definition fallback_birthday : string :=
  "Birthday parties are my favorite! 🎂 For a memorable birthday celebration, consider:

• **Theme Ideas**: Vintage Hollywood, Garden Party, or Decade-themed (80s, 90s)
• **Decorations**: Balloon arches, string lights, personalized banners
• **Menu**: I'd recommend a mix of appetizers, a signature main course, and a show-stopping dessert!

How many guests are you expecting?".

Definition fallback_theme : string :=
  "Great question about themes! Here are some popular options:

🎭 **Elegant Themes**: Masquerade, Great Gatsby, Wine & Dine
🌍 **Cultural Themes**: Mediterranean Night, Asian Fusion, Mexican Fiesta
🎨 **Fun Themes**: Retro Diner, Garden to Table, Game Night

What vibe are you going for - elegant, casual, or fun?".

Definition fallback_menu : string :=
  "For menu planning, I always start with dietary preferences! 🍽️

Let me know if you need:
• Vegetarian/Vegan options
• Gluten-free selections
• Kid-friendly choices
• Specific cuisine types

What dietary considerations should we keep in mind?".

Definition fallback_default : string :=
  "I'm here to help you plan an amazing event! 🌟 I can assist with themes, decorations, menu selection, and seating arrangements. What aspect of your event would you like to focus on first?".

(** The dictionary [fallback_responses], read by key. *)
Definition fallback_responses (key : string) : string :=
  if String.eqb key "greeting" then fallback_greeting
  else if String.eqb key "birthday" then fallback_birthday
  else if String.eqb key "theme" then fallback_theme
  else if String.eqb key "menu" then fallback_menu
  else fallback_default.

Definition _get_fallback_response (user_message : string) : string :=
  let message_lower := Str.lower user_message in
  if Str.any_in ["hello"; "hi"; "start"; "help"] message_lower then
    fallback_responses "greeting"
  else if Str.any_in ["birthday"; "bday"] message_lower then
    fallback_responses "birthday"
  else if Str.any_in ["theme"; "decoration"; "decor"] message_lower then
    fallback_responses "theme"
  else if Str.any_in ["menu"; "food"; "eat"; "dietary"] message_lower then
    fallback_responses "menu"
  else
    fallback_responses "default".

(** ** Regular expressions ([re.search])

    The three guest-count patterns use literals, the classes [\d] and [\s],
    sequencing, alternation, the greedy quantifiers [*] and [+], and one
    capturing group.  Python's [re] is a backtracking matcher: of all the
    ways a pattern can match at a position it returns the first in priority
    order (a greedy quantifier tries the longer repetition first, an
    alternation its left branch first), and [re.search] returns the match
    at the leftmost position that has one.  [run] lists the ways a pattern
    matches at a position in that priority order, so the matcher's answer
    is the head of the list. *)

Module Re.

Inductive regex : Type :=
| Lit (s : string)
| Class (p : ascii -> bool)
| Seq (r1 r2 : regex)
| Alt (r1 r2 : regex)
| Star (r : regex)
| Group (r : regex).

Definition Plus (r : regex) : regex := Seq r (Star r).

(** The input still to be read, and the text captured by group 1. *)
Definition state : Type := string * option string.

Fixpoint strip_prefix (p s : string) : option string :=
  match p, s with
  | EmptyString, _ => Some s
  | String a p', String b s' =>
      if Ascii.eqb a b then strip_prefix p' s' else None
  | String _ _, EmptyString => None
  end.

(** Greedy repetition of [f]: one more round first, then stopping here.
    A round that reads nothing is not repeated. *)
Fixpoint star (f : state -> list state) (fuel : nat) (st : state)
  : list state :=
  match fuel with
  | O => [st]
  | S fuel' =>
      (st' ← f st;
       if (String.length st'.1 <? String.length st.1)%nat
       then star f fuel' st' else [])
      ++ [st]
  end.

Fixpoint run (r : regex) (st : state) : list state :=
  match r with
  | Lit l =>
      match strip_prefix l st.1 with
      | Some rest => [(rest, st.2)]
      | None => []
      end
  | Class p =>
      match st.1 with
      | String c rest => if p c then [(rest, st.2)] else []
      | EmptyString => []
      end
  | Seq a b => st' ← run a st; run b st'
  | Alt a b => run a st ++ run b st
  | Star a => star (run a) (String.length st.1) st
  | Group a =>
      (fun st' : state =>
         (st'.1,
          Some (Str.take (String.length st.1 - String.length st'.1) st.1)))
      <$> run a st
  end.

(** [re.search(r, text)]: [None] when nothing matches, otherwise
    [match.group(1)] of the leftmost match. *)
Fixpoint search (r : regex) (text : string) : option (option string) :=
  match run r (text, None) with
  | st :: _ => Some st.2
  | [] =>
      match text with
      | EmptyString => None
      | String _ text' => search r text'
      end
  end.

(** Every character of [w] is in the class [p]. *)
Fixpoint all_chars (p : ascii -> bool) (w : string) : bool :=
  match w with
  | EmptyString => true
  | String c w' => p c && all_chars p w'
  end.

(** The pattern has no capturing group. *)
Fixpoint no_group (r : regex) : bool :=
  match r with
  | Lit _ | Class _ => true
  | Seq a b | Alt a b => no_group a && no_group b
  | Star a => no_group a
  | Group _ => false
  end.


(** A non-empty string of decimal digits. *)
Definition digits (w : string) : Prop :=
  w ≠ "" ∧ all_chars Str.is_digit w = true.

(** Every match of the pattern has group 1 set to such a string. *)
Definition captures_digits (r : regex) : Prop :=
  ∀ st st', st' ∈ run r st → ∃ w, st'.2 = Some w ∧ digits w.

End Re.

(** [int(s)] for a string of decimal digits, which is all the program
    passes to it; [None] stands for [ValueError]. *)
Fixpoint digits_value (acc : Z) (s : string) : option Z :=
  match s with
  | EmptyString => Some acc
  | String c s' =>
      if Str.is_digit c
      then digits_value (10 * acc + (Z.of_N (N_of_ascii c) - 48)) s'
      else None
  end.

Definition py_int (s : string) : option Z :=
  match s with
  | EmptyString => None
  | _ => digits_value 0 s
  end.

(** ** Field extraction ([AIEventAssistant.extract_event_details]) *)

Definition event_types : list string :=
  ["birthday"; "anniversary"; "wedding"; "corporate"; "party";
   "celebration"; "dinner"; "lunch"].

Import Re.

(** [(\d+)\s*(?:people|guests|persons)] *)
Definition guest_pattern_people : regex :=
  Seq (Group (Plus (Class Str.is_digit)))
      (Seq (Star (Class Str.is_space))
           (Alt (Lit "people") (Alt (Lit "guests") (Lit "persons")))).

(** [(?:for|around|about)\s*(\d+)] *)
Definition guest_pattern_for : regex :=
  Seq (Alt (Lit "for") (Alt (Lit "around") (Lit "about")))
      (Seq (Star (Class Str.is_space))
           (Group (Plus (Class Str.is_digit)))).

(** [(\d+)\s*(?:pax|attendees)] *)
Definition guest_pattern_pax : regex :=
  Seq (Group (Plus (Class Str.is_digit)))
      (Seq (Star (Class Str.is_space))
           (Alt (Lit "pax") (Lit "attendees"))).

Definition guest_patterns : list regex :=
  [guest_pattern_people; guest_pattern_for; guest_pattern_pax].

(** The dictionary [dietary_keywords], in the order it is iterated. *)
Definition dietary_keywords : list (string * list string) :=
  [("vegan", ["vegan"]);
   ("vegetarian", ["vegetarian"; "veggie"]);
   ("gluten-free", ["gluten-free"; "gluten free"; "celiac"]);
   ("dairy-free", ["dairy-free"; "dairy free"; "lactose"]);
   ("low-carb", ["low-carb"; "low carb"; "keto"]);
   ("halal", ["halal"]);
   ("kosher", ["kosher"])].

Definition theme_keywords : list string :=
  ["retro"; "vintage"; "modern"; "rustic"; "elegant"; "casual"; "formal";
   "themed"].

(** [for w in words: if w in text: ... = w; break] *)
Definition first_keyword (words : list string) (text : string)
  : option string :=
  find (Str.contains text) words.

(** The guest-count loop.  The outer [None] is an exception raised by
    [int(match.group(1))]; [Some None] is a loop that ends with no pattern
    matched. *)
Fixpoint guest_count_loop (patterns : list regex) (text_lower : string)
  : option (option Z) :=
  match patterns with
  | [] => Some None
  | pattern :: patterns' =>
      match search pattern text_lower with
      | Some group1 =>
          match group1 ≫= py_int with
          | Some n => Some (Some n)
          | None => None
          end
      | None => guest_count_loop patterns' text_lower
      end
  end.

(** The dietary loop: one [append] per entry whose keywords occur. *)
Definition dietary_loop (text_lower : string) : list string :=
  fold_left
    (fun (prefs : list string) (entry : string * list string) =>
       if Str.any_in entry.2 text_lower then prefs ++ [entry.1] else prefs)
    dietary_keywords [].

Definition empty_event_details : gmap string pyval :=
  {[ "eventType" := PNone;
     "guestCount" := PNone;
     "theme" := PNone;
     "dietaryPreferences" := PList [];
     "specialRequests" := PList [];
     "budget" := PNone;
     "date" := PNone ]}.

Definition extract_event_details (conversation_text : string)
  : option (gmap string pyval) :=
  let event_details := empty_event_details in
  let text_lower := Str.lower conversation_text in
  let event_details :=
    match first_keyword event_types text_lower with
    | Some event_type => <["eventType" := PStr event_type]> event_details
    | None => event_details
    end in
  guest ← guest_count_loop guest_patterns text_lower;
  let event_details :=
    match guest with
    | Some n => <["guestCount" := PInt n]> event_details
    | None => event_details
    end in
  let event_details :=
    <["dietaryPreferences" := PList (dietary_loop text_lower)]> event_details in
  let event_details :=
    match first_keyword theme_keywords text_lower with
    | Some keyword => <["theme" := PStr keyword]> event_details
    | None => event_details
    end in
  Some event_details.

(** ** Menu items and the menu selector ([AIEventAssistant.suggest_menu_items])

    A menu item is a document of the catalog.  The keys the program reads
    with [item.get(key, default)] may be missing and are optional fields;
    [price] holds the decimal text the f-strings print. *)

Record MenuItem : Type := {
  item_id : string;
  name : string;
  category : option string;
  ingredients : list string;
  dietType : option (list string);
  price : string;
  imageURL : string
}.

#[global] Instance MenuItem_eq_dec : EqDecision MenuItem.
Proof. solve_decision. Defined.

(** [any(pref in item.get('dietType', []) for pref in prefs)] *)
Definition matches_diet (prefs : list string) (item : MenuItem) : bool :=
  let item_diets := default [] (dietType item) in
  existsb (fun pref => bool_decide (pref ∈ item_diets)) prefs.

(** [l[:k]] for a Python integer [k]: a negative [k] counts from the end. *)
Definition py_slice_to {A} (k : Z) (l : list A) : list A :=
  if (0 <=? k)%Z then take (Z.to_nat k) l
  else take (Z.to_nat (Z.of_nat (length l) + k)) l.

(** [l[-k:]] for [0 < k]: the last [k] elements. *)
Definition py_last {A} (k : nat) (l : list A) : list A :=
  drop (length l - k) l.

(** [item.get('category', 'Other')] *)
Definition category_of (item : MenuItem) : string :=
  default "Other" (category item).

(** [len(categories_covered) < 3 or category not in categories_covered] *)
Definition admits (categories_covered : gset string) (item : MenuItem)
  : bool :=
  (size categories_covered <? 3)%nat
  || negb (bool_decide (category_of item ∈ categories_covered)).

(** The loop that walks the catalog, with its two accumulators. *)
Fixpoint variety_loop (max_items : Z) (menu_items : list MenuItem)
    (suggested_items : list MenuItem) (categories_covered : gset string)
  : list MenuItem :=
  match menu_items with
  | [] => suggested_items
  | item :: rest =>
      if (max_items <=? Z.of_nat (length suggested_items))%Z
      then suggested_items
      else if admits categories_covered item
      then variety_loop max_items rest (suggested_items ++ [item])
             ({[category_of item]} ∪ categories_covered)
      else variety_loop max_items rest suggested_items categories_covered
  end.

(** The dietary filter, with its fall-back to the whole catalog. *)
Definition filter_by_diet (dietary_prefs : list string)
    (menu_items : list MenuItem) : list MenuItem :=
  match dietary_prefs with
  | [] => menu_items
  | _ =>
      let filtered_items := List.filter (matches_diet dietary_prefs) menu_items in
      match filtered_items with
      | [] => menu_items
      | _ => filtered_items
      end
  end.

(** The source also reads [guestCount] from [event_details] and never
    uses it. *)
Definition suggest_menu_items (menu_items : list MenuItem)
    (event_details : gmap string pyval) (max_items : Z) : list MenuItem :=
  match menu_items with
  | [] => []
  | _ =>
      let dietary_prefs := dict_get_list event_details "dietaryPreferences" in
      let menu_items := filter_by_diet dietary_prefs menu_items in
      py_slice_to max_items (variety_loop max_items menu_items [] ∅)
  end.

(** ** The catalog ([FirestoreManager]) *)

(** The document store behind [_db]: the documents of [menuItems] as
    [(doc.id, doc.to_dict())], for a query with or without an
    [array_contains_any] filter; [None] when the query raises. *)
Record Firestore : Type := {
  stream_menuItems : option (list string) -> option (list (string * MenuItem))
}.

Definition mock_items : list MenuItem :=
  [ {| item_id := "1"; name := "Classic Caesar Salad";
       category := Some "Appetizers";
       ingredients := ["romaine lettuce"; "parmesan"; "croutons"; "caesar dressing"];
       dietType := Some ["vegetarian"];
       price := "12.99"; imageURL := "https://example.com/caesar.jpg" |};
    {| item_id := "2"; name := "Grilled Salmon";
       category := Some "Main Course";
       ingredients := ["atlantic salmon"; "lemon"; "herbs"; "vegetables"];
       dietType := Some ["gluten-free"];
       price := "24.99"; imageURL := "https://example.com/salmon.jpg" |};
    {| item_id := "3"; name := "Quinoa Buddha Bowl";
       category := Some "Main Course";
       ingredients := ["quinoa"; "avocado"; "chickpeas"; "kale"; "tahini"];
       dietType := Some ["vegan"; "gluten-free"];
       price := "16.99"; imageURL := "https://example.com/buddha-bowl.jpg" |};
    {| item_id := "4"; name := "Chocolate Lava Cake";
       category := Some "Desserts";
       ingredients := ["dark chocolate"; "butter"; "eggs"; "flour"; "vanilla"];
       dietType := Some ["vegetarian"];
       price := "8.99"; imageURL := "https://example.com/lava-cake.jpg" |};
    {| item_id := "5"; name := "Vegan Mushroom Risotto";
       category := Some "Main Course";
       ingredients := ["arborio rice"; "mushrooms"; "nutritional yeast"; "vegetable broth"];
       dietType := Some ["vegan"; "gluten-free"];
       price := "18.99"; imageURL := "https://example.com/risotto.jpg" |} ].

(** [if diet_filters:] on an optional list. *)
Definition filters_given (diet_filters : option (list string)) : bool :=
  match diet_filters with
  | Some (_ :: _) => true
  | _ => false
  end.

Definition _get_mock_menu_items (diet_filters : option (list string))
  : list MenuItem :=
  if filters_given diet_filters then
    List.filter
      (fun item =>
         existsb (fun diet => bool_decide (diet ∈ default [] (dietType item)))
           (default [] diet_filters))
      mock_items
  else mock_items.

(** [item_data['id'] = doc.id] *)
Definition set_id (doc : string * MenuItem) : MenuItem :=
  let item_data := doc.2 in
  {| item_id := doc.1; name := name item_data; category := category item_data;
     ingredients := ingredients item_data; dietType := dietType item_data;
     price := price item_data; imageURL := imageURL item_data |}.

Definition get_menu_items (_db : option Firestore)
    (diet_filters : option (list string)) : list MenuItem :=
  match _db with
  | None => _get_mock_menu_items diet_filters
  | Some db =>
      let query := if filters_given diet_filters then diet_filters else None in
      match stream_menuItems db query with
      | Some docs => set_id <$> docs
      | None => _get_mock_menu_items diet_filters
      end
  end.

(** ** The assistant ([AIEventAssistant]) *)

(** One entry of [conversation_history]. *)
Record Exchange : Type := {
  user : string;
  assistant : string;
  timestamp : nat
}.

(** The handle [self.chat] is opaque to the program; what the provider
    answers is given to each call from outside.  An assistant whose
    initialisation stopped before the attribute was set is one without a
    handle: reading the attribute raises inside [generate_response]'s [try]
    and ends in the same fallback. *)
Inductive ChatSession : Type := GeminiChat.

Record AIEventAssistant : Type := {
  chat : option ChatSession;
  conversation_history : list Exchange
}.

Definition get_system_prompt : string :=
  "You are an expert Event Planning Assistant for a smart restaurant management system. Your role is to help staff plan memorable events, parties, and themed nights.

CAPABILITIES:
- Suggest creative event themes and concepts
- Recommend decorations, costumes, and ambiance ideas  
- Create seating arrangements and layouts
- Filter and suggest menu items based on dietary preferences
- Provide timeline and planning guidance
- Offer cost-effective solutions

PERSONALITY:
- Enthusiastic and creative
- Professional yet approachable
- Detail-oriented and practical
- Always consider dietary restrictions and accessibility

RESPONSE FORMAT:
- Be conversational and engaging
- Provide specific, actionable suggestions
- When suggesting menus, ask about dietary preferences
- Always end with a follow-up question to keep the conversation flowing
- Use emojis sparingly but effectively

CONSTRAINTS:
- Focus on restaurant/dining events only
- Keep suggestions realistic and budget-conscious
- Always prioritize guest safety and comfort
- Respect cultural sensitivities in theme suggestions

Remember: You're helping create memorable experiences that will delight guests and showcase the restaurant's capabilities.".

(** One line of the menu section.  [item['category']] raises [KeyError]
    on an item without that key: the result is [None]. *)
Definition menu_line (item : MenuItem) : option string :=
  let dietary_info := Str.join ", " (default [] (dietType item)) in
  cat ← category item;
  Some ("- " +:+ name item +:+ " ($" +:+ price item +:+ ") - " +:+ cat
        +:+ " - Dietary: " +:+ dietary_info).

(** The two lines of the history section for one exchange. *)
Definition history_lines (entry : Exchange) : list string :=
  ["User: " +:+ user entry;
   "Assistant: " +:+ Str.take 200 (assistant entry) +:+ "..."].

Section Assistant.

(** [json.dumps(context, indent=2)], a library function. *)
Variable json_dumps : gmap string pyval -> string.

Definition menu_section (menu_items : option (list MenuItem))
  : option (list string) :=
  match menu_items with
  | None | Some [] => Some []
  | Some items =>
      lines ← mapM menu_line (take 10 items);
      Some ((nl +:+ "AVAILABLE MENU ITEMS:") :: lines)
  end.

Definition context_section (context : option (gmap string pyval))
  : list string :=
  match context with
  | Some ctx =>
      if decide (ctx = ∅) then []
      else [nl +:+ "CONTEXT: " +:+ json_dumps ctx]
  | None => []
  end.

Definition history_section (history : list Exchange) : list string :=
  if (0 <? length history)%nat
  then (nl +:+ "RECENT CONVERSATION:")
         :: (py_last 3 history ≫= history_lines)
  else [].

(** [None] when building the prompt raises. *)
Definition _build_enhanced_prompt (self : AIEventAssistant)
    (user_message : string) (menu_items : option (list MenuItem))
    (context : option (gmap string pyval)) : option string :=
  let prompt_parts := [get_system_prompt] in
  menu ← menu_section menu_items;
  let prompt_parts := prompt_parts ++ menu in
  let prompt_parts := prompt_parts ++ context_section context in
  let prompt_parts :=
    prompt_parts ++ history_section (conversation_history self) in
  let prompt_parts :=
    prompt_parts ++ [nl +:+ "CURRENT USER MESSAGE: " +:+ user_message] in
  let prompt_parts :=
    prompt_parts
    ++ [nl +:+ "Please provide a helpful, creative response as the Event Planning Assistant:"] in
  Some (Str.join nl prompt_parts).

(** [generate_response] returns the reply and the assistant as the call
    leaves it.  [send_message prompt] is what the provider does with the
    prompt: [Some text] is [response.text], [None] a raised exception.
    Everything between [try] and [except] that raises ends in the
    fallback reply. *)
Definition generate_response (self : AIEventAssistant)
    (send_message : string -> option string) (now : nat)
    (user_message : string) (menu_items : option (list MenuItem))
    (context : option (gmap string pyval))
  : string * AIEventAssistant :=
  match chat self with
  | None => (_get_fallback_response user_message, self)
  | Some _ =>
      match _build_enhanced_prompt self user_message menu_items context
            ≫= send_message with
      | Some response_text =>
          (response_text,
           {| chat := chat self;
              conversation_history :=
                conversation_history self
                ++ [{| user := user_message; assistant := response_text;
                       timestamp := now |}] |})
      | None => (_get_fallback_response user_message, self)
      end
  end.

Definition clear_conversation (self : AIEventAssistant) : AIEventAssistant :=
  {| chat := chat self; conversation_history := [] |}.

(** ** The chat page ([app.py], [main_chat_interface]) *)

(** One entry of [st.session_state.chat_history]. *)
Record ChatMessage : Type := {
  message : string;
  is_user : bool;
  sent_at : nat
}.

Record SessionState : Type := {
  chat_history : list ChatMessage;
  current_event_details : gmap string pyval;
  user_name : string
}.

(** The session state with the two module-level singletons. *)
Record World : Type := {
  session_state : SessionState;
  ai_assistant : AIEventAssistant;
  firestore_manager : option Firestore
}.

(** What the outside does during one run of the page: the readings of
    the clock and the provider's behaviour. *)
Record Env : Type := {
  clock_user : nat;
  clock_exchange : nat;
  clock_reply : nat;
  provider : string -> option string
}.

Inductive Action : Type :=
| Send (user_message : string) (env : Env)
| Clear.

Definition initialize_session_state : SessionState :=
  {| chat_history := []; current_event_details := ∅;
     user_name := "Event Planner" |}.

Definition with_chat_history (st : SessionState) (h : list ChatMessage)
  : SessionState :=
  {| chat_history := h; current_event_details := current_event_details st;
     user_name := user_name st |}.

Definition with_event_details (st : SessionState) (d : gmap string pyval)
  : SessionState :=
  {| chat_history := chat_history st; current_event_details := d;
     user_name := user_name st |}.

(** [" ".join([chat['message'] for chat in chat_history])] *)
Definition full_conversation (h : list ChatMessage) : string :=
  Str.join " " (message <$> h).

(** The branch [if send_button and user_message.strip():].  Were
    [extract_event_details] to raise, the run would stop there, with the
    user's message already in the history. *)
Definition handle_send (w : World) (user_message : string) (env : Env)
  : World :=
  if Str.all_space user_message then w
  else
    let st := session_state w in
    let st :=
      with_chat_history st
        (chat_history st
         ++ [{| message := user_message; is_user := true;
                sent_at := clock_user env |}]) in
    match extract_event_details (full_conversation (chat_history st)) with
    | None =>
        {| session_state := st; ai_assistant := ai_assistant w;
           firestore_manager := firestore_manager w |}
    | Some event_details =>
        let st :=
          with_event_details st
            (dict_update (current_event_details st) event_details) in
        let dietary_prefs :=
          dict_get_list event_details "dietaryPreferences" in
        let menu_items :=
          get_menu_items (firestore_manager w)
            (match dietary_prefs with
             | [] => None
             | _ => Some dietary_prefs
             end) in
        let '(ai_response, assistant') :=
          generate_response (ai_assistant w) (provider env)
            (clock_exchange env) user_message (Some menu_items)
            (Some (current_event_details st)) in
        let st :=
          with_chat_history st
            (chat_history st
             ++ [{| message := ai_response; is_user := false;
                    sent_at := clock_reply env |}]) in
        {| session_state := st; ai_assistant := assistant';
           firestore_manager := firestore_manager w |}
    end.

(** The branch [if clear_button:]. *)
Definition handle_clear (w : World) : World :=
  {| session_state :=
       {| chat_history := []; current_event_details := ∅;
          user_name := user_name (session_state w) |};
     ai_assistant := clear_conversation (ai_assistant w);
     firestore_manager := firestore_manager w |}.

Definition step (w : World) (a : Action) : World :=
  match a with
  | Send user_message env => handle_send w user_message env
  | Clear => handle_clear w
  end.

Definition run_actions (w : World) (actions : list Action) : World :=
  fold_left step actions w.

(** The world when the page is first loaded: an empty session, an
    assistant with or without a chat handle, a store reachable or not. *)
Definition initial_world (handle : option ChatSession)
    (db : option Firestore) : World :=
  {| session_state := initialize_session_state;
     ai_assistant := {| chat := handle; conversation_history := [] |};
     firestore_manager := db |}.

End Assistant.

(** ** Vocabulary of the statements *)



(** A menu item with a given identifier and category, for examples. *)
Definition example_item (ident cat : string) : MenuItem :=
  {| item_id := ident; name := ident; category := Some cat;
     ingredients := []; dietType := None; price := "10.0"; imageURL := "" |}.





(** The items the admission test lets through when no cap stops the walk:
    the selection of [variety_loop] with unlimited room. *)
Fixpoint admitted (menu_items : list MenuItem) (categories_covered : gset string)
  : list MenuItem :=
  match menu_items with
  | [] => []
  | item :: rest =>
      if admits categories_covered item
      then item :: admitted rest ({[category_of item]} ∪ categories_covered)
      else admitted rest categories_covered
  end.

(** The categories of a list of items. *)
Definition categories_of (items : list MenuItem) : gset string :=
  list_to_set (category_of <$> items).

(** The item carries one of the preferred diet tags. *)
Definition suits (prefs : list string) (item : MenuItem) : Prop :=
  ∃ pref, pref ∈ prefs ∧ pref ∈ default [] (dietType item).








(** ** Saved events ([FirestoreManager.save_event], [get_events],
    [get_event_stats]; [app.py], [event_summary_sidebar]) *)

(** A [datetime], with the fields a reader may ask for. *)
Record datetime : Type := {
  year : nat;
  month : nat;
  day : nat;
  seconds : nat
}.

#[global] Instance datetime_eq_dec : EqDecision datetime.
Proof. solve_decision. Defined.

#[global] Instance ChatMessage_eq_dec : EqDecision ChatMessage.
Proof. solve_decision. Defined.

(** The values of an event dictionary: those of the profile, the chat
    messages kept with the event, a [datetime]. *)
Inductive evval : Type :=
| EVal (v : pyval)
| EChat (h : list ChatMessage)
| ETime (t : datetime).

#[global] Instance evval_eq_dec : EqDecision evval.
Proof. solve_decision. Defined.

(** The [events] collection of the store: [add] tells whether the
    document was written ([false] when the call raises); [stream_events]
    gives the documents as [(doc.id, doc.to_dict())], newest first, for a
    query with or without a [createdBy] filter, [None] when it raises.
    The documents are taken to hold values of the kinds the program
    writes. *)
Record EventsCollection : Type := {
  add : gmap string evval → bool;
  stream_events : option string → option (list (string * gmap string evval))
}.

(** [save_event] returns the success flag and the list [mock_events] of
    the session as the call leaves it. *)
Definition save_event (_db : option EventsCollection) (now : datetime)
    (mock_events : list (gmap string evval)) (event_data : gmap string evval)
  : bool * list (gmap string evval) :=
  match _db with
  | None => (true, mock_events ++ [event_data])
  | Some db =>
      let event_data := <["timestamp" := ETime now]> event_data in
      (add db event_data, mock_events)
  end.

Definition get_events (_db : option EventsCollection)
    (mock_events : list (gmap string evval)) (created_by : option string)
  : list (gmap string evval) :=
  match _db with
  | None => mock_events
  | Some db =>
      let query :=
        match created_by with
        | Some (String _ _) => created_by
        | _ => None
        end in
      match stream_events db query with
      | Some docs =>
          (λ doc : string * gmap string evval,
             <["id" := EVal (PStr doc.1)]> doc.2) <$> docs
      | None => []
      end
  end.

(** [timestamp.month == datetime.now().month] for a [datetime]; [False]
    for a missing, null or other value. *)
Definition _is_this_month (now : datetime) (timestamp : option evval) : bool :=
  match timestamp with
  | Some (ETime t) => Nat.eqb (month t) (month now)
  | _ => false
  end.

(** [event.get('createdBy', 'Anonymous')] *)
Definition creator_of (event : gmap string evval) : evval :=
  default (EVal (PStr "Anonymous")) (event !! "createdBy").

(** A value can be the key of a dictionary unless it is a list. *)
Definition hashable (v : evval) : bool :=
  match v with
  | EVal (PList _) | EChat _ => false
  | _ => true
  end.

(** [creators[creator] = creators.get(creator, 0) + 1] on a dictionary
    kept in insertion order: the count of a known key is raised in place,
    a new key goes to the end. *)
Fixpoint bump (creator : evval) (creators : list (evval * nat))
  : list (evval * nat) :=
  match creators with
  | [] => [(creator, 1)]
  | (c, n) :: rest =>
      if decide (c = creator) then (c, n + 1) :: rest
      else (c, n) :: bump creator rest
  end.

(** The counting loop; [None] when a creator cannot be a key. *)
Fixpoint count_creators (events : list (gmap string evval))
    (creators : list (evval * nat)) : option (list (evval * nat)) :=
  match events with
  | [] => Some creators
  | event :: rest =>
      let creator := creator_of event in
      if hashable creator then count_creators rest (bump creator creators)
      else None
  end.

(** [sorted(items, key=lambda x: x[1], reverse=True)]: the stable sort in
    decreasing order of count, written as an insertion sort. *)
Fixpoint insert_by_count (x : evval * nat) (l : list (evval * nat))
  : list (evval * nat) :=
  match l with
  | [] => [x]
  | y :: l' =>
      if (x.2 <? y.2)%nat then y :: insert_by_count x l' else x :: y :: l'
  end.

Definition sorted_by_count (l : list (evval * nat)) : list (evval * nat) :=
  foldr insert_by_count [] l.

Record EventStats : Type := {
  total_events : nat;
  top_creators : list (evval * nat);
  this_month : nat
}.

Definition get_event_stats (_db : option EventsCollection) (now : datetime)
    (mock_events : list (gmap string evval)) : EventStats :=
  let events := get_events _db mock_events None in
  match count_creators events [] with
  | Some creators =>
      {| total_events := length events;
         top_creators := take 5 (sorted_by_count creators);
         this_month :=
           length
             (List.filter (λ e, _is_this_month now (e !! "timestamp")) events) |}
  | None => {| total_events := 0; top_creators := []; this_month := 0 |}
  end.

(** The dictionary the sidebar form saves:
    [{**details, 'date': ..., 'createdBy': ..., 'additionalNotes': ...,
      'chatHistory': chat_history[-5:], 'timestamp': datetime.now()}]. *)
Definition build_event_data (st : SessionState)
    (event_date creator_name additional_notes : string) (now : datetime)
  : gmap string evval :=
  <["timestamp" := ETime now]>
    (<["chatHistory" := EChat (py_last 5 (chat_history st))]>
       (<["additionalNotes" := EVal (PStr additional_notes)]>
          (<["createdBy" := EVal (PStr creator_name)]>
             (<["date" := EVal (PStr event_date)]>
                (EVal <$> current_event_details st))))).

(** The form of the sidebar, shown when the profile is not empty; pressing
    the save button saves the event and, on success, remembers the name.
    The result is the session state and [mock_events]. *)
Definition submit_save_form (_db : option EventsCollection) (st : SessionState)
    (mock_events : list (gmap string evval))
    (event_date creator_name additional_notes : string) (now : datetime)
  : SessionState * list (gmap string evval) :=
  if decide (current_event_details st = ∅) then (st, mock_events)
  else
    let event_data :=
      build_event_data st event_date creator_name additional_notes now in
    let '(saved, mock_events) := save_event _db now mock_events event_data in
    if saved
    then ({| chat_history := chat_history st;
             current_event_details := current_event_details st;
             user_name := creator_name |}, mock_events)
    else (st, mock_events).

(** How many of the events are by the creator. *)
Definition events_by (creator : evval) (events : list (gmap string evval))
  : nat :=
  length (List.filter (λ e, bool_decide (creator_of e = creator)) events).

(** The count recorded for a creator, 0 when there is none. *)
Definition count_of (creators : list (evval * nat)) (creator : evval) : nat :=
  from_option snd 0 (find (λ p, bool_decide (p.1 = creator)) creators).

(** The creators in the order in which the events first name them. *)
Definition first_seen (events : list (gmap string evval)) : list evval :=
  foldl (λ seen creator,
           if decide (creator ∈ seen) then seen else seen ++ [creator])
    [] (creator_of <$> events).

(** The order [sorted_by_count] sorts into. *)
Definition by_count (x y : evval * nat) : Prop := y.2 ≤ x.2.

(** The statistics returned when they cannot be computed. *)
Definition no_stats : EventStats :=
  {| total_events := 0; top_creators := []; this_month := 0 |}.

(** * Properties *)

(** ** Strings *)

Module StrFacts.
Import Str.


Lemma str_app_cons a s t : String a s +:+ t = String a (s +:+ t).
Proof. reflexivity. Qed.

Lemma str_app_nil_r s : s +:+ "" = s.
Proof. induction s as [|a s IH]; [done|]. by rewrite str_app_cons, IH. Qed.

Lemma str_app_assoc s t u : (s +:+ t) +:+ u = s +:+ t +:+ u.
Proof.
  induction s as [|a s IH]; [done|]. by rewrite !str_app_cons, IH.
Qed.

Lemma str_length_app s t :
  String.length (s +:+ t) = String.length s + String.length t.
Proof.
  induction s as [|a s IH]; [done|]. rewrite str_app_cons. simpl. by rewrite IH.
Qed.


Lemma prefix_spec p s :
  String.prefix p s = true ↔ ∃ post, s = p +:+ post.
Proof.
  revert s. induction p as [|a p IH]; intros s.
  - split; [intros _; by exists s|]. by destruct s.
  - destruct s as [|b s]; simpl.
    + split; [done|]. intros [post H]. by rewrite str_app_cons in H.
    + destruct (ascii_dec a b) as [->|Hne].
      * rewrite IH. split; intros [post H]; exists post.
        -- by rewrite str_app_cons, <- H.
        -- rewrite str_app_cons in H. by simplify_eq.
      * split; [done|]. intros [post H]. rewrite str_app_cons in H.
        by simplify_eq.
Qed.

Lemma contains_nil needle :
  contains "" needle = String.prefix needle "".
Proof. unfold contains. apply orb_false_r. Qed.

Lemma contains_cons c hay needle :
  contains (String c hay) needle
  = String.prefix needle (String c hay) || contains hay needle.
Proof. reflexivity. Qed.

Lemma contains_spec hay needle :
  contains hay needle = true ↔ occurs_in needle hay.
Proof.
  unfold occurs_in. induction hay as [|c hay IH].
  - rewrite contains_nil, prefix_spec. split.
    + intros [post H]. by exists "", post.
    + intros ([|a pre] & post & H).
      * by exists post.
      * by rewrite str_app_cons in H.
  - rewrite contains_cons, orb_true_iff, prefix_spec, IH. split.
    + intros [[post H]|(pre & post & H)].
      * by exists "", post.
      * exists (String c pre), post. by rewrite str_app_cons, <- H.
    + intros ([|a pre] & post & H).
      * left. by exists post.
      * right. exists pre, post. rewrite str_app_cons in H. by simplify_eq.
Qed.

Lemma occurs_in_app_r needle hay post :
  occurs_in needle hay → occurs_in needle (hay +:+ post).
Proof.
  intros (pre & post' & ->). exists pre, (post' +:+ post).
  by rewrite !str_app_assoc.
Qed.

Lemma contains_app_r hay needle post :
  contains hay needle = true → contains (hay +:+ post) needle = true.
Proof. rewrite !contains_spec. apply occurs_in_app_r. Qed.

Lemma any_in_spec words hay :
  any_in words hay = true ↔ ∃ w, w ∈ words ∧ occurs_in w hay.
Proof.
  unfold any_in. rewrite existsb_exists. split.
  - intros (w & Hin & Hw). exists w. split; [by apply list_elem_of_In|].
    by apply contains_spec.
  - intros (w & Hin & Hw). exists w. split; [by apply list_elem_of_In|].
    by apply contains_spec.
Qed.

Lemma any_in_app_r words hay post :
  any_in words hay = true → any_in words (hay +:+ post) = true.
Proof.
  rewrite !any_in_spec. intros (w & ? & ?). exists w.
  eauto using occurs_in_app_r.
Qed.

End StrFacts.

(** ** Fallback responses *)

(** C10: keyword groups are tested by plain substring containment and the
    greeting group comes first, so a message whose lower-cased text holds
    "hi" anywhere gets the greeting, whatever else it holds; "this menu" and
    "everything for a birthday" are such messages. *)
Theorem fallback_hi_anywhere_greets :
  (∀ user_message,
     Str.occurs_in "hi" (Str.lower user_message) →
     _get_fallback_response user_message = fallback_greeting)
  ∧ _get_fallback_response "Show me this menu" = fallback_greeting
  ∧ _get_fallback_response "Everything for a birthday" = fallback_greeting.
Proof.
  split; [|by vm_compute].
  intros user_message Hhi. unfold _get_fallback_response.
  assert (Str.any_in ["hello"; "hi"; "start"; "help"]
            (Str.lower user_message) = true) as ->; [|done].
  apply StrFacts.any_in_spec. exists "hi". split; [|done].
  set_solver.
Qed.

Lemma fallback_hi_anywhere_greets_witness :
  Str.occurs_in "hi" (Str.lower "Something for a Bday menu")
  ∧ _get_fallback_response "Something for a Bday menu" = fallback_greeting.
Proof.
  assert (Str.occurs_in "hi" (Str.lower "Something for a Bday menu")) as H.
  { by exists "somet", "ng for a bday menu". }
  split; [exact H|].
  exact (proj1 fallback_hi_anywhere_greets "Something for a Bday menu" H).
Defined.

(** ** Regular expressions *)

Module ReFacts.
Import Str StrFacts Re.

Lemma take_app_length w s : Str.take (String.length w) (w +:+ s) = w.
Proof.
  unfold Str.take. induction w as [|c w IH].
  - by destruct s.
  - rewrite str_app_cons. simpl. by rewrite IH.
Qed.



(** What [star] returns does not depend on the fuel beyond the length of
    the input; membership is stated for any fuel. *)
Lemma star_elem f n st st' :
  st' ∈ star f n st →
  st' = st
  ∨ ∃ n' st1, n = S n' ∧ st1 ∈ f st
      ∧ String.length st1.1 < String.length st.1 ∧ st' ∈ star f n' st1.
Proof.
  destruct n as [|n]; simpl.
  - rewrite list_elem_of_singleton. by left.
  - rewrite elem_of_app, list_elem_of_bind, list_elem_of_singleton.
    intros [(st1 & Hin & H1)| ->]; [|by left].
    right. exists n, st1.
    destruct (Nat.ltb_spec (String.length st1.1) (String.length st.1));
      [done|]. by apply elem_of_nil in Hin.
Qed.



(** Induction over the rounds of a repetition. *)
Lemma star_rounds (P : state → state → Prop) f :
  (∀ st, P st st) →
  (∀ st st1 st',
     st1 ∈ f st → String.length st1.1 < String.length st.1 →
     P st1 st' → P st st') →
  ∀ n st st', st' ∈ star f n st → P st st'.
Proof.
  intros Hrefl Hstep n. induction n as [|n IHn]; intros st st' H;
    apply star_elem in H as [->|(n' & st1 & Hn & H1 & Hlt & H')];
    [done|done|done|].
  simplify_eq. eauto.
Qed.


(** A pattern without a group leaves the capture as it was. *)
Lemma run_no_group r st st' :
  no_group r = true → st' ∈ run r st → st'.2 = st.2.
Proof.
  revert st st'. induction r as [l|p|a IHa b IHb|a IHa b IHb|a IHa|a IHa];
    intros st st'; simpl; intros Hng.
  - destruct (strip_prefix l st.1); [|by intros ?%elem_of_nil].
    by intros ->%list_elem_of_singleton.
  - destruct st.1 as [|c rest]; [by intros ?%elem_of_nil|].
    destruct (p c); [|by intros ?%elem_of_nil].
    by intros ->%list_elem_of_singleton.
  - apply andb_true_iff in Hng as [??].
    rewrite list_elem_of_bind. intros (st1 & H2 & H1).
    rewrite (IHb _ _ ltac:(done) H2). eauto.
  - apply andb_true_iff in Hng as [??].
    rewrite elem_of_app. intros [?|?]; eauto.
  - apply (star_rounds (λ st st', st'.2 = st.2)); clear st st'; [done|].
    intros st st1 st' H1 _ ->. eauto.
  - done.
Qed.

(** The group captures exactly the text its body has read. *)
Lemma run_group a (Q : string → Prop) st st' :
  (∀ s1, s1 ∈ run a st → ∃ w, st.1 = w +:+ s1.1 ∧ Q w) →
  st' ∈ run (Group a) st → ∃ w, st'.2 = Some w ∧ Q w.
Proof.
  intros Ha. simpl. rewrite list_elem_of_fmap. intros (s1 & -> & H1). simpl.
  destruct (Ha _ H1) as (w & E & HQ). exists w. split; [|done].
  rewrite E, str_length_app, Nat.add_sub. by rewrite take_app_length.
Qed.

(** The repetition of a class reads characters of that class. *)
Lemma star_class p n st st' :
  st' ∈ star (run (Class p)) n st →
  ∃ w, st.1 = w +:+ st'.1 ∧ all_chars p w = true ∧ st'.2 = st.2.
Proof.
  revert n st st'.
  apply (star_rounds
           (λ st st', ∃ w, st.1 = w +:+ st'.1 ∧ all_chars p w = true
                           ∧ st'.2 = st.2)).
  - intros st. by exists "".
  - intros st st1 st' H1 _ (w & E' & Hw & Hg). simpl in H1.
    destruct st.1 as [|c rest] eqn:E; [by apply elem_of_nil in H1|].
    destruct (p c) eqn:Hp; [|by apply elem_of_nil in H1].
    apply list_elem_of_singleton in H1 as ->. simpl in *.
    exists (String c w). rewrite str_app_cons, <- E'. simpl. by rewrite Hp, Hw.
Qed.

Lemma run_plus_class p st st' :
  st' ∈ run (Plus (Class p)) st →
  ∃ w, st.1 = w +:+ st'.1 ∧ w ≠ "" ∧ all_chars p w = true ∧ st'.2 = st.2.
Proof.
  unfold Plus. simpl. rewrite list_elem_of_bind. intros (st1 & H' & H1).
  destruct st.1 as [|c rest] eqn:E; [by apply elem_of_nil in H1|].
  destruct (p c) eqn:Hp; [|by apply elem_of_nil in H1].
  apply list_elem_of_singleton in H1 as ->.
  apply star_class in H' as (w & E' & Hw & Hg). simpl in *.
  exists (String c w). rewrite str_app_cons, <- E'. simpl. by rewrite Hp, Hw.
Qed.

(** *** Matching a longer text

    A match found in a text is still there when the text is continued. *)



Lemma search_Some r text g :
  search r text = Some g →
  ∃ pre s st, text = pre +:+ s ∧ st ∈ run r (s, None) ∧ st.2 = g.
Proof.
  induction text as [|c text IH]; simpl.
  - destruct (run r ("", None)) as [|st l] eqn:E; [done|].
    intros [= <-]. exists "", "", st. rewrite E. set_solver.
  - destruct (run r (String c text, None)) as [|st l] eqn:E.
    + intros (pre & s & st & -> & ? & ?)%IH.
      exists (String c pre), s, st. by rewrite str_app_cons.
    + intros [= <-]. exists "", (String c text), st. rewrite E. set_solver.
Qed.



(** *** The three guest-count patterns capture a number *)

Lemma group_digits_captures st st' :
  st' ∈ run (Group (Plus (Class is_digit))) st →
  ∃ w, st'.2 = Some w ∧ digits w.
Proof.
  apply run_group. intros s1 (w & ? & ? & ? & _)%run_plus_class.
  by exists w.
Qed.

Lemma digits_then_words_captures rest :
  no_group rest = true →
  captures_digits (Seq (Group (Plus (Class is_digit))) rest).
Proof.
  intros Hng st st'. simpl run. rewrite list_elem_of_bind.
  intros (st1 & H2 & H1). rewrite (run_no_group _ _ _ Hng H2).
  by apply (group_digits_captures st).
Qed.

Lemma guest_pattern_people_captures : captures_digits guest_pattern_people.
Proof. by apply digits_then_words_captures. Qed.

Lemma guest_pattern_pax_captures : captures_digits guest_pattern_pax.
Proof. by apply digits_then_words_captures. Qed.

Lemma guest_pattern_for_captures : captures_digits guest_pattern_for.
Proof.
  intros st st'. unfold guest_pattern_for.
  change (run (Seq ?a (Seq ?b ?c)) st) with
    (st1 ← run a st; st2 ← run b st1; run c st2).
  rewrite list_elem_of_bind. intros (st1 & H & _).
  apply list_elem_of_bind in H as (st2 & H & _).
  by apply (group_digits_captures st2).
Qed.

Lemma guest_patterns_capture r :
  r ∈ guest_patterns → captures_digits r.
Proof.
  unfold guest_patterns. rewrite !elem_of_cons, elem_of_nil.
  intros [->|[->|[->|[]]]];
    auto using guest_pattern_people_captures, guest_pattern_for_captures,
      guest_pattern_pax_captures.
Qed.

Lemma digits_value_nonneg w acc :
  all_chars is_digit w = true → (0 ≤ acc)%Z →
  ∃ n, digits_value acc w = Some n ∧ (0 ≤ n)%Z.
Proof.
  revert acc. induction w as [|c w IH]; intros acc Hw Hacc; simpl in *.
  - by exists acc.
  - apply andb_true_iff in Hw as [Hc Hw]. rewrite Hc. apply IH; [done|].
    unfold is_digit in Hc. apply andb_true_iff in Hc as [Hc _].
    apply N.leb_le in Hc. lia.
Qed.

Lemma py_int_digits w :
  digits w → ∃ n, py_int w = Some n ∧ (0 ≤ n)%Z.
Proof.
  intros [Hne Hw]. destruct w as [|c w]; [done|].
  by apply (digits_value_nonneg (String c w) 0).
Qed.

End ReFacts.

(** ** Field extraction *)

Module ExtractFacts.
Import Str StrFacts Re ReFacts.




(** The guest-count loop takes the first pattern of the list that
    matches. *)
Lemma guest_count_loop_first pre p post text g :
  (∀ q, q ∈ pre → search q text = None) →
  search p text = Some g →
  guest_count_loop (pre ++ p :: post) text
  = match g ≫= py_int with
    | Some n => Some (Some n)
    | None => None
    end.
Proof.
  intros Hpre Hp. induction pre as [|q pre IH]; simpl.
  - by rewrite Hp.
  - rewrite (Hpre q) by (by left). apply IH. intros q' ?. apply Hpre.
    by right.
Qed.

Lemma guest_count_loop_none patterns text :
  (∀ q, q ∈ patterns → search q text = None) →
  guest_count_loop patterns text = Some None.
Proof.
  induction patterns as [|q patterns IH]; intros H; simpl; [done|].
  rewrite (H q) by (by left). apply IH. intros q' ?. apply H. by right.
Qed.

(** Either no pattern matches, or there is a first one that does. *)
Lemma first_matching_pattern patterns text :
  (∀ q, q ∈ patterns → search q text = None)
  ∨ ∃ pre p post g,
      patterns = pre ++ p :: post
      ∧ (∀ q, q ∈ pre → search q text = None)
      ∧ search p text = Some g.
Proof.
  induction patterns as [|q patterns IH].
  - left. by intros q ?%elem_of_nil.
  - destruct (search q text) as [g|] eqn:Hq.
    + right. exists [], q, patterns, g. split_and!; [done| |done].
      by intros q' ?%elem_of_nil.
    + destruct IH as [Hall|(pre & p & post & g & -> & Hpre & Hp)].
      * left. intros q' [->|?]%elem_of_cons; auto.
      * right. exists (q :: pre), p, post, g. split_and!; [done| |done].
        intros q' [->|?]%elem_of_cons; auto.
Qed.

Lemma search_captures p text g :
  captures_digits p → search p text = Some g →
  ∃ n, g ≫= py_int = Some n ∧ (0 ≤ n)%Z.
Proof.
  intros Hp (pre & s & st & _ & Hst & <-)%search_Some.
  destruct (Hp _ _ Hst) as (w & -> & Hw). simpl. by apply py_int_digits.
Qed.

(** The loop over the three patterns never raises; it ends with no count
    exactly when no pattern matches, and otherwise with a natural number. *)
Lemma guest_count_loop_total text :
  (guest_count_loop guest_patterns text = Some None
   ∧ ∀ q, q ∈ guest_patterns → search q text = None)
  ∨ ∃ n, guest_count_loop guest_patterns text = Some (Some n) ∧ (0 ≤ n)%Z
         ∧ ∃ q, q ∈ guest_patterns ∧ is_Some (search q text).
Proof.
  destruct (first_matching_pattern guest_patterns text)
    as [Hall|(pre & p & post & g & E & Hpre & Hp)].
  - left. split; [|done]. by apply guest_count_loop_none.
  - right. assert (p ∈ guest_patterns) as Hin.
    { rewrite E. set_solver. }
    destruct (search_captures p text g) as (n & Hn & Hpos);
      [by apply guest_patterns_capture|done|].
    exists n. rewrite E, (guest_count_loop_first pre p post text g), Hn by done.
    split_and!; [done|done|]. exists p. rewrite <- E. eauto.
Qed.







(** The seven keys of the extracted dictionary, field by field. *)
Lemma extract_fields text :
  ∃ guest d,
    guest_count_loop guest_patterns (lower text) = Some guest
    ∧ extract_event_details text = Some d
    ∧ d !! "eventType"
      = Some (from_option PStr PNone
                (first_keyword event_types (lower text)))
    ∧ d !! "guestCount" = Some (from_option PInt PNone guest)
    ∧ d !! "theme"
      = Some (from_option PStr PNone
                (first_keyword theme_keywords (lower text)))
    ∧ d !! "dietaryPreferences" = Some (PList (dietary_loop (lower text)))
    ∧ d !! "specialRequests" = Some (PList [])
    ∧ d !! "budget" = Some PNone
    ∧ d !! "date" = Some PNone.
Proof.
  assert (∃ guest, guest_count_loop guest_patterns (lower text) = Some guest)
    as [guest Hguest].
  { destruct (guest_count_loop_total (lower text)) as [[-> _]|(n & -> & _)];
      eauto. }
  exists guest. unfold extract_event_details. rewrite Hguest.
  generalize (first_keyword event_types (lower text))
    (first_keyword theme_keywords (lower text)) (dietary_loop (lower text)).
  intros et th prefs.
  destruct et, th, guest; eexists; split_and!; reflexivity.
Qed.

End ExtractFacts.

(** The reading of the guest count in an extraction result. *)
Lemma extract_guestCount text pre p post g :
  guest_patterns = pre ++ p :: post →
  (∀ q, q ∈ pre → Re.search q (Str.lower text) = None) →
  Re.search p (Str.lower text) = Some g →
  (λ d : gmap string pyval, d !! "guestCount") <$> extract_event_details text
  = Some (PInt <$> (g ≫= py_int)).
Proof.
  intros E Hpre Hp.
  destruct (ExtractFacts.extract_fields text)
    as (guest & d & Hloop & Hd & _ & Hgc & _).
  rewrite E, (ExtractFacts.guest_count_loop_first _ _ _ _ g) in Hloop by done.
  rewrite Hd. simpl. rewrite Hgc.
  destruct (ExtractFacts.search_captures p (Str.lower text) g) as (n & Hn & _);
    [|done|].
  { apply ReFacts.guest_patterns_capture. rewrite E. set_solver. }
  rewrite Hn in *. by simplify_eq.
Qed.

(** C1 (as stated, refuted): on "for 20, about 15 people" the extracted
    guest count is not 20. *)
Lemma guest_count_of_for_20_about_15_people_is_not_20 :
  (λ d : gmap string pyval, d !! "guestCount")
    <$> extract_event_details "for 20, about 15 people"
  ≠ Some (Some (PInt 20)).
Proof. intros H. vm_compute in H. discriminate H. Qed.

(** C1 (amended): on "for 20, about 15 people" the extracted guest count is
    15.  The pattern "<N> people/guests/persons" is the first of the list
    and matches "15 people"; the pattern "for|around|about <N>", which would
    give 20, is the second and is not tried.  In general the first pattern
    of the list that matches anywhere in the lower-cased text supplies the
    integer, whatever the later patterns would match. *)
Theorem guest_count_first_listed_pattern_wins :
  guest_patterns = [guest_pattern_people; guest_pattern_for; guest_pattern_pax]
  ∧ Re.search guest_pattern_people "for 20, about 15 people" = Some (Some "15")
  ∧ Re.search guest_pattern_for "for 20, about 15 people" = Some (Some "20")
  ∧ (λ d : gmap string pyval, d !! "guestCount")
      <$> extract_event_details "for 20, about 15 people"
    = Some (Some (PInt 15))
  ∧ ∀ text pre p post g,
      guest_patterns = pre ++ p :: post →
      (∀ q, q ∈ pre → Re.search q (Str.lower text) = None) →
      Re.search p (Str.lower text) = Some g →
      (λ d : gmap string pyval, d !! "guestCount")
        <$> extract_event_details text
      = Some (PInt <$> (g ≫= py_int)).
Proof.
  split_and!; [done|by vm_compute|by vm_compute|by vm_compute|].
  apply extract_guestCount.
Qed.

Lemma guest_count_first_listed_pattern_wins_witness :
  guest_patterns = [] ++ guest_pattern_people
                     :: [guest_pattern_for; guest_pattern_pax]
  ∧ (∀ q, q ∈ @nil Re.regex →
          Re.search q (Str.lower "About 30, for 12 Guests") = None)
  ∧ Re.search guest_pattern_people (Str.lower "About 30, for 12 Guests")
    = Some (Some "12")
  ∧ (λ d : gmap string pyval, d !! "guestCount")
      <$> extract_event_details "About 30, for 12 Guests"
    = Some (PInt <$> (Some "12" ≫= py_int)).
Proof.
  assert (∀ q, q ∈ @nil Re.regex →
               Re.search q (Str.lower "About 30, for 12 Guests") = None) as H0.
  { intros q Hq. by apply elem_of_nil in Hq. }
  assert (Re.search guest_pattern_people (Str.lower "About 30, for 12 Guests")
          = Some (Some "12")) as H1 by (by vm_compute).
  split_and!; [done|exact H0|exact H1|].
  exact (proj2 (proj2 (proj2 (proj2 guest_count_first_listed_pattern_wins)))
           "About 30, for 12 Guests" [] guest_pattern_people
           [guest_pattern_for; guest_pattern_pax] (Some "12")
           eq_refl H0 H1).
Defined.



(** ** The menu selector *)

Module MenuFacts.

Lemma variety_loop_cons max_items item rest acc cov :
  variety_loop max_items (item :: rest) acc cov
  = if (max_items <=? Z.of_nat (length acc))%Z then acc
    else if admits cov item
         then variety_loop max_items rest (acc ++ [item])
                ({[category_of item]} ∪ cov)
         else variety_loop max_items rest acc cov.
Proof. reflexivity. Qed.

(** The loop only adds items of the catalog, in catalog order, after what
    it has already chosen. *)
Lemma variety_loop_shape max_items items acc cov :
  ∃ chosen, variety_loop max_items items acc cov = acc ++ chosen
            ∧ chosen `sublist_of` items.
Proof.
  revert acc cov. induction items as [|item rest IH]; intros acc cov.
  - exists []. by rewrite app_nil_r.
  - rewrite variety_loop_cons.
    destruct (max_items <=? Z.of_nat (length acc))%Z.
    { exists []. rewrite app_nil_r. split; [done|]. apply sublist_nil_l. }
    destruct (admits cov item).
    + destruct (IH (acc ++ [item]) ({[category_of item]} ∪ cov))
        as (chosen & -> & Hsub).
      exists (item :: chosen). rewrite <- app_assoc. split; [done|].
      by apply sublist_skip.
    + destruct (IH acc cov) as (chosen & -> & Hsub).
      exists chosen. split; [done|]. by apply sublist_cons.
Qed.

(** The loop never goes beyond the cap it starts under. *)
Lemma variety_loop_length max_items items acc cov :
  (Z.of_nat (length acc) ≤ max_items)%Z →
  (Z.of_nat (length (variety_loop max_items items acc cov)) ≤ max_items)%Z.
Proof.
  revert acc cov. induction items as [|item rest IH]; intros acc cov Hacc;
    [done|].
  rewrite variety_loop_cons.
  destruct (Z.leb_spec max_items (Z.of_nat (length acc))); [done|].
  destruct (admits cov item); [|by apply IH].
  apply IH. rewrite length_app. simpl. lia.
Qed.

Lemma py_slice_to_sublist {A} k (l : list A) : py_slice_to k l `sublist_of` l.
Proof.
  unfold py_slice_to.
  destruct (0 <=? k)%Z; apply sublist_take.
Qed.

Lemma py_slice_to_length {A} k (l : list A) :
  (0 ≤ k)%Z → (Z.of_nat (length (py_slice_to k l)) ≤ k)%Z.
Proof.
  intros Hk. unfold py_slice_to. destruct (Z.leb_spec 0 k); [|lia].
  rewrite length_take. lia.
Qed.

Lemma py_slice_to_nil {A} k : py_slice_to k (@nil A) = [].
Proof. unfold py_slice_to. destruct (0 <=? k)%Z; apply take_nil. Qed.

(** Under a cap that is not positive the loop chooses nothing. *)
Lemma variety_loop_no_room max_items items cov :
  (max_items ≤ 0)%Z → variety_loop max_items items [] cov = [].
Proof.
  intros Hmax. destruct items as [|item rest]; [done|].
  rewrite variety_loop_cons. simpl length.
  by destruct (Z.leb_spec max_items (Z.of_nat 0)); [|lia].
Qed.

Lemma py_slice_to_all {A} k (l : list A) :
  (Z.of_nat (length l) ≤ k)%Z → py_slice_to k l = l.
Proof.
  intros H. unfold py_slice_to. destruct (Z.leb_spec 0 k); [|lia].
  apply take_ge. lia.
Qed.

Lemma filter_sublist {A} (f : A → bool) (l : list A) :
  List.filter f l `sublist_of` l.
Proof.
  induction l as [|y l IH]; simpl; [done|].
  destruct (f y); [by apply sublist_skip|by apply sublist_cons].
Qed.

Lemma filter_none {A} (f : A → bool) (l : list A) :
  (∀ x, x ∈ l → f x = false) → List.filter f l = [].
Proof.
  induction l as [|y l IH]; intros H; simpl; [done|].
  rewrite (H y) by (by left). apply IH. intros x ?. apply H. by right.
Qed.

Lemma filter_by_diet_sublist prefs items :
  filter_by_diet prefs items `sublist_of` items.
Proof.
  unfold filter_by_diet. destruct prefs as [|pref prefs]; [done|].
  destruct (List.filter _ items) as [|x l] eqn:E; [done|].
  rewrite <- E. apply filter_sublist.
Qed.

Lemma filter_by_diet_nonempty prefs items :
  items ≠ [] → filter_by_diet prefs items ≠ [].
Proof.
  unfold filter_by_diet. destruct prefs as [|pref prefs]; [done|].
  by destruct (List.filter _ items).
Qed.

(** The preferences share no tag with any item. *)
Lemma matches_diet_false prefs item :
  (∀ pref, pref ∈ prefs → pref ∉ default [] (dietType item)) →
  matches_diet prefs item = false.
Proof.
  intros H. unfold matches_diet. apply not_true_iff_false.
  rewrite existsb_exists. intros (pref & Hin & Hd).
  apply bool_decide_eq_true in Hd. apply (H pref); [|done].
  by apply list_elem_of_In.
Qed.

Lemma filter_by_diet_fallback prefs items :
  (∀ item pref, item ∈ items → pref ∈ prefs →
                pref ∉ default [] (dietType item)) →
  filter_by_diet prefs items = items.
Proof.
  intros H. unfold filter_by_diet. destruct prefs as [|pref prefs]; [done|].
  rewrite filter_none; [done|].
  intros item ?. apply matches_diet_false. intros p ?. by apply H.
Qed.

Lemma admits_first item : admits ∅ item = true.
Proof. unfold admits. by rewrite size_empty. Qed.

Lemma variety_loop_nonempty max_items items :
  items ≠ [] → (0 < max_items)%Z → variety_loop max_items items [] ∅ ≠ [].
Proof.
  destruct items as [|item rest]; [done|]. intros _ Hmax.
  rewrite variety_loop_cons. simpl length.
  destruct (Z.leb_spec max_items (Z.of_nat 0)); [lia|].
  rewrite admits_first.
  destruct (variety_loop_shape max_items rest ([] ++ [item])
              ({[category_of item]} ∪ ∅)) as (chosen & -> & _).
  done.
Qed.

Lemma suggest_menu_items_unfold menu_items event_details max_items :
  suggest_menu_items menu_items event_details max_items
  = py_slice_to max_items
      (variety_loop max_items
         (filter_by_diet (dict_get_list event_details "dietaryPreferences")
            menu_items)
         [] ∅).
Proof.
  unfold suggest_menu_items. destruct menu_items as [|item rest]; [|done].
  assert (∀ prefs, filter_by_diet prefs [] = []) as ->
      by (by intros [|??]).
  simpl. by rewrite py_slice_to_nil.
Qed.

End MenuFacts.

(** C5: the selector returns at most [max_items] items (none for a
    negative [max_items]); what it returns is a sub-sequence of the
    catalog; an empty catalog gives the empty list; and when the dietary
    preferences of the profile share no tag with any item, the selection is
    the one made on the whole catalog, which is not empty when the catalog
    is not and [max_items] is positive. *)
Theorem suggest_menu_items_bounded_and_from_catalog :
  ∀ (catalog : list MenuItem) (event_details : gmap string pyval)
    (max_items : Z),
    (Z.of_nat (length (suggest_menu_items catalog event_details max_items))
     ≤ Z.max 0 max_items)%Z
    ∧ suggest_menu_items catalog event_details max_items `sublist_of` catalog
    ∧ (∀ item, item ∈ suggest_menu_items catalog event_details max_items →
               item ∈ catalog)
    ∧ suggest_menu_items [] event_details max_items = []
    ∧ ((∀ item pref,
          item ∈ catalog →
          pref ∈ dict_get_list event_details "dietaryPreferences" →
          pref ∉ default [] (dietType item)) →
       suggest_menu_items catalog event_details max_items
       = py_slice_to max_items (variety_loop max_items catalog [] ∅)
       ∧ (catalog ≠ [] → (0 < max_items)%Z →
          suggest_menu_items catalog event_details max_items ≠ [])).
Proof.
  intros catalog event_details max_items.
  assert (suggest_menu_items catalog event_details max_items
          `sublist_of` catalog) as Hsub.
  { rewrite MenuFacts.suggest_menu_items_unfold.
    etrans; [apply MenuFacts.py_slice_to_sublist|].
    destruct (MenuFacts.variety_loop_shape max_items
                (filter_by_diet
                   (dict_get_list event_details "dietaryPreferences") catalog)
                [] ∅) as (chosen & -> & Hc).
    simpl. etrans; [done|]. apply MenuFacts.filter_by_diet_sublist. }
  split_and!; [|done| |done|].
  - rewrite MenuFacts.suggest_menu_items_unfold.
    destruct (Z.le_gt_cases max_items 0) as [Hle|Hgt].
    + rewrite MenuFacts.variety_loop_no_room, MenuFacts.py_slice_to_nil by done.
      simpl. lia.
    + etrans; [apply MenuFacts.py_slice_to_length; lia|lia].
  - intros item Hin. by eapply elem_of_sublist.
  - intros Hnone. rewrite MenuFacts.suggest_menu_items_unfold.
    rewrite (MenuFacts.filter_by_diet_fallback _ _ Hnone). split; [done|].
    intros Hne Hmax.
    pose proof (MenuFacts.variety_loop_nonempty max_items catalog Hne Hmax).
    pose proof (MenuFacts.variety_loop_length max_items catalog [] ∅).
    rewrite MenuFacts.py_slice_to_all; [done|]. simpl in *. lia.
Qed.

Lemma suggest_menu_items_bounded_and_from_catalog_witness :
  let halal : gmap string pyval :=
    {[ "dietaryPreferences" := PList ["halal"] ]} in
  (∀ item pref,
     item ∈ mock_items →
     pref ∈ dict_get_list halal "dietaryPreferences" →
     pref ∉ default [] (dietType item))
  ∧ suggest_menu_items mock_items halal 3
    = py_slice_to 3 (variety_loop 3 mock_items [] ∅).
Proof.
  intros halal.
  assert (∀ item pref,
            item ∈ mock_items →
            pref ∈ dict_get_list halal "dietaryPreferences" →
            pref ∉ default [] (dietType item)) as H.
  { intros item pref Hitem Hpref.
    apply list_elem_of_singleton in Hpref as ->.
    unfold mock_items in Hitem.
    repeat (apply elem_of_cons in Hitem as [->|Hitem];
            [simpl; rewrite ?not_elem_of_cons; by split_and!;
               try discriminate; try apply not_elem_of_nil|]).
    by apply elem_of_nil in Hitem. }
  split; [exact H|].
  exact (proj1
           (proj2 (proj2 (proj2 (proj2
              (suggest_menu_items_bounded_and_from_catalog mock_items halal 3))))
            H)).
Defined.

(** C4: with the catalog [A1, A2, B1, C1, A3, D1] (categories a, a, b, c,
    a, d, all different), no dietary preference and [max_items = 4], the
    selection is [A1, A2, B1, C1].  [A2] is admitted because one category
    only, fewer than three, is covered when it is met; once a, b and c are
    covered the admission test rejects [A3], whose category is among them,
    as the run with room for six items shows. *)
Theorem category_diversity_example :
  ∀ (A1 A2 B1 C1 A3 D1 : MenuItem) (a b c d : string)
    (event_details : gmap string pyval),
    category_of A1 = a → category_of A2 = a → category_of A3 = a →
    category_of B1 = b → category_of C1 = c → category_of D1 = d →
    a ≠ b → a ≠ c → b ≠ c → d ≠ a → d ≠ b → d ≠ c →
    dict_get_list event_details "dietaryPreferences" = [] →
    suggest_menu_items [A1; A2; B1; C1; A3; D1] event_details 4
    = [A1; A2; B1; C1]
    ∧ size ({[a]} : gset string) < 3
    ∧ admits {[a]} A2 = true
    ∧ size ({[a; b; c]} : gset string) = 3
    ∧ admits {[a; b; c]} A3 = false
    ∧ suggest_menu_items [A1; A2; B1; C1; A3; D1] event_details 6
      = [A1; A2; B1; C1; D1].
Proof.
  intros A1 A2 B1 C1 A3 D1 a b c d event_details
    HA1 HA2 HA3 HB1 HC1 HD1 Hab Hac Hbc Hda Hdb Hdc Hprefs.
  assert (size ({[a]} : gset string) = 1) as S1 by apply size_singleton.
  assert (size ({[a; b]} : gset string) = 2) as S2.
  { rewrite size_union, !size_singleton; [done|].
    by apply disjoint_singleton_l, not_elem_of_singleton. }
  assert (size ({[a; b; c]} : gset string) = 3) as S3.
  { rewrite size_union, size_singleton, S2; [done|].
    apply disjoint_singleton_r, not_elem_of_union.
    split; apply not_elem_of_singleton; congruence. }
  assert (admits ∅ A1 = true) as E1 by apply MenuFacts.admits_first.
  assert (admits {[a]} A2 = true) as E2.
  { unfold admits. by rewrite S1. }
  assert (admits {[a]} B1 = true) as E3.
  { unfold admits. by rewrite S1. }
  assert (admits {[a; b]} C1 = true) as E4.
  { unfold admits. by rewrite S2. }
  assert (admits {[a; b; c]} A3 = false) as E5.
  { unfold admits. rewrite S3, HA3. simpl.
    rewrite bool_decide_eq_true_2; [done|].
    apply elem_of_union_l, elem_of_union_l. by apply elem_of_singleton. }
  assert (admits {[a; b; c]} D1 = true) as E6.
  { unfold admits. rewrite S3, HD1. simpl.
    rewrite bool_decide_eq_false_2; [done|].
    rewrite !not_elem_of_union, !not_elem_of_singleton. done. }
  assert (({[a]} ∪ ∅ : gset string) = {[a]}) as U1
    by apply union_empty_r_L.
  assert (({[a]} ∪ {[a]} : gset string) = {[a]}) as U2
    by apply union_idemp_L.
  assert (({[b]} ∪ {[a]} : gset string) = {[a; b]}) as U3
    by apply union_comm_L.
  assert (({[c]} ∪ {[a; b]} : gset string) = {[a; b; c]}) as U4
    by apply union_comm_L.
  split_and!; [|lia|done|done|done|].
  - rewrite MenuFacts.suggest_menu_items_unfold, Hprefs.
    unfold filter_by_diet.
    rewrite !MenuFacts.variety_loop_cons. simpl.
    rewrite E1, HA1, U1, E2, HA2, U2, E3, HB1, U3, E4. done.
  - rewrite MenuFacts.suggest_menu_items_unfold, Hprefs.
    unfold filter_by_diet.
    rewrite !MenuFacts.variety_loop_cons. simpl.
    rewrite E1, HA1, U1, E2, HA2, U2, E3, HB1, U3, E4, HC1, U4, E5, E6. done.
Qed.

Lemma category_diversity_example_witness :
  "A" ≠ "B" ∧ "A" ≠ "C" ∧ "B" ≠ "C"
  ∧ suggest_menu_items
      [example_item "A1" "A"; example_item "A2" "A"; example_item "B1" "B";
       example_item "C1" "C"; example_item "A3" "A"; example_item "D1" "D"]
      ∅ 4
    = [example_item "A1" "A"; example_item "A2" "A"; example_item "B1" "B";
       example_item "C1" "C"].
Proof.
  assert ("A" ≠ "B") as Hab by discriminate.
  assert ("A" ≠ "C") as Hac by discriminate.
  assert ("B" ≠ "C") as Hbc by discriminate.
  assert ("D" ≠ "A") as Hda by discriminate.
  assert ("D" ≠ "B") as Hdb by discriminate.
  assert ("D" ≠ "C") as Hdc by discriminate.
  split_and!; [done..|].
  exact (proj1 (category_diversity_example
                  (example_item "A1" "A") (example_item "A2" "A")
                  (example_item "B1" "B") (example_item "C1" "C")
                  (example_item "A3" "A") (example_item "D1" "D")
                  "A" "B" "C" "D" ∅
                  eq_refl eq_refl eq_refl eq_refl eq_refl eq_refl
                  Hab Hac Hbc Hda Hdb Hdc eq_refl)).
Defined.

(** ** The catalog *)

(** C7 (as stated, refuted): without a database handle and with the filter
    ["vegan"], [get_menu_items] returns two items, not the five of the demo
    catalog. *)
Lemma mock_catalog_is_filtered :
  length mock_items = 5
  ∧ length (get_menu_items None (Some ["vegan"])) = 2
  ∧ get_menu_items None (Some ["vegan"]) ≠ mock_items
  ∧ get_menu_items None (Some ["halal"]) = [].
Proof. split_and!; [done|done| |done]. intros H. vm_compute in H. discriminate H. Qed.

(** C7 (amended): without a database handle [get_menu_items] returns the
    demo catalog of five items when it is called without a filter or with
    an empty one, and otherwise those of the five items, in the same order,
    that carry at least one of the requested diet tags. *)
Theorem mock_catalog_when_store_unreachable :
  length mock_items = 5
  ∧ get_menu_items None None = mock_items
  ∧ get_menu_items None (Some []) = mock_items
  ∧ ∀ diet_filters,
      get_menu_items None diet_filters `sublist_of` mock_items
      ∧ ∀ item,
          item ∈ get_menu_items None diet_filters
          ↔ item ∈ mock_items
            ∧ (filters_given diet_filters = false
               ∨ ∃ diet, diet ∈ default [] diet_filters
                         ∧ diet ∈ default [] (dietType item)).
Proof.
  split_and!; [done..|].
  intros diet_filters. unfold get_menu_items, _get_mock_menu_items.
  destruct (filters_given diet_filters) eqn:Hf.
  - split; [apply MenuFacts.filter_sublist|]. intros item.
    rewrite list_elem_of_In, filter_In, <- list_elem_of_In, existsb_exists.
    split.
    + intros [Hin (diet & Hd & Hb)]. split; [done|]. right. exists diet.
      apply bool_decide_eq_true in Hb. by rewrite list_elem_of_In.
    + intros [Hin [?|(diet & Hd & Hb)]]; [done|]. split; [done|].
      exists diet. rewrite <- list_elem_of_In.
      by rewrite bool_decide_eq_true.
  - split; [done|]. intros item. split; [by auto|by intros [? _]].
Qed.

(** ** Prompt composition *)

Module PromptFacts.
Import StrFacts.



Lemma py_last_suffix {A} k (l : list A) : py_last k l `suffix_of` l.
Proof. apply suffix_drop. Qed.

Lemma py_last_length {A} k (l : list A) :
  length (py_last k l) = Nat.min k (length l).
Proof. unfold py_last. rewrite length_drop. lia. Qed.



End PromptFacts.



(** ** The assistant and the chat page *)

Module SessionFacts.
Import StrFacts.

Lemma generate_response_failure json_dumps self send_message now
    user_message menu_items context :
  chat self = None
  ∨ _build_enhanced_prompt json_dumps self user_message menu_items context
    ≫= send_message = None →
  generate_response json_dumps self send_message now user_message menu_items
    context
  = (_get_fallback_response user_message, self).
Proof.
  unfold generate_response. intros [->| ->]; [done|]. by destruct (chat self).
Qed.





End SessionFacts.




(** ** The live event profile *)

Module ProfileFacts.
Import StrFacts.







End ProfileFacts.



(** ** Worked examples *)

(** The five buckets of the fallback selector. *)
Example fallback_buckets :
  _get_fallback_response "Hi, can you help?" = fallback_greeting
  ∧ _get_fallback_response "planning a birthday" = fallback_birthday
  ∧ _get_fallback_response "what theme ideas" = fallback_theme
  ∧ _get_fallback_response "gluten free menu" = fallback_menu
  ∧ _get_fallback_response "random topic" = fallback_default.
Proof. by vm_compute. Qed.

(** One message with a signal for every field. *)
Example extract_all_fields :
  (λ d : gmap string pyval,
     (d !! "eventType", d !! "guestCount", d !! "theme",
      d !! "dietaryPreferences"))
    <$> extract_event_details
          "I want to plan a birthday party for 25 people with a retro theme, keto and Gluten Free"
  = Some (Some (PStr "birthday"), Some (PInt 25), Some (PStr "retro"),
          Some (PList ["gluten-free"; "low-carb"])).
Proof. by vm_compute. Qed.

(** The demo catalog through the selector: a filter that matches, one that
    matches nothing, a small cap. *)
Example suggest_on_demo_catalog :
  name <$> suggest_menu_items mock_items
             {[ "dietaryPreferences" := PList ["vegan"] ]} 6
  = ["Quinoa Buddha Bowl"; "Vegan Mushroom Risotto"]
  ∧ name <$> suggest_menu_items mock_items
               {[ "dietaryPreferences" := PList ["halal"] ]} 6
    = ["Classic Caesar Salad"; "Grilled Salmon"; "Quinoa Buddha Bowl";
       "Chocolate Lava Cake"]
  ∧ name <$> suggest_menu_items mock_items ∅ 2
    = ["Classic Caesar Salad"; "Grilled Salmon"].
Proof. by vm_compute. Qed.

(** Two messages and a blank one, with a provider that answers. *)
Example two_messages :
  let env := {| clock_user := 1; clock_exchange := 2; clock_reply := 3;
                provider := λ _, Some "ok" |} in
  let w :=
    run_actions (λ _, "{}") (initial_world (Some GeminiChat) None)
      [Send "dinner for 12" env; Send "  " env; Send "vegan please" env] in
  message <$> chat_history (session_state w)
  = ["dinner for 12"; "ok"; "vegan please"; "ok"]
  ∧ length (conversation_history (ai_assistant w)) = 2
  ∧ dict_get (current_event_details (session_state w)) "guestCount" = PInt 12
  ∧ dict_get_list (current_event_details (session_state w))
      "dietaryPreferences"
    = ["vegan"].
Proof. by vm_compute. Qed.

(** * Further properties *)

(** ** The menu selector, continued *)

Module SelectorFacts.

(** The capped walk is the uncapped one, cut at the cap. *)
Lemma variety_loop_admitted max_items items acc cov :
  (Z.of_nat (length acc) ≤ max_items)%Z →
  variety_loop max_items items acc cov
  = acc ++ take (Z.to_nat max_items - length acc) (admitted items cov).
Proof.
  revert acc cov. induction items as [|item rest IH]; intros acc cov Hacc.
  - simpl. by rewrite take_nil, app_nil_r.
  - rewrite MenuFacts.variety_loop_cons. simpl admitted.
    destruct (Z.leb_spec max_items (Z.of_nat (length acc))).
    + replace (Z.to_nat max_items - length acc) with 0 by lia.
      by rewrite take_0, app_nil_r.
    + destruct (admits cov item).
      * rewrite IH by (rewrite length_app; simpl; lia).
        rewrite length_app, <- app_assoc. simpl. f_equal.
        replace (Z.to_nat max_items - length acc)
          with (S (Z.to_nat max_items - (length acc + 1))) by lia.
        done.
      * by apply IH.
Qed.

Lemma suggest_menu_items_admitted menu_items event_details max_items :
  suggest_menu_items menu_items event_details max_items
  = take (Z.to_nat max_items)
      (admitted
         (filter_by_diet (dict_get_list event_details "dietaryPreferences")
            menu_items) ∅).
Proof.
  rewrite MenuFacts.suggest_menu_items_unfold.
  destruct (Z.le_gt_cases max_items 0) as [Hle|Hgt].
  - rewrite MenuFacts.variety_loop_no_room, MenuFacts.py_slice_to_nil by done.
    replace (Z.to_nat max_items) with 0 by lia. by rewrite take_0.
  - rewrite variety_loop_admitted by (simpl; lia). simpl.
    rewrite Nat.sub_0_r. apply MenuFacts.py_slice_to_all.
    rewrite length_take. lia.
Qed.

(** Each item the admission test lets through passed the test against the
    categories of the items let through before it. *)
Lemma admitted_split items cov pre x post :
  admitted items cov = pre ++ x :: post →
  admits (categories_of pre ∪ cov) x = true.
Proof.
  revert cov pre. induction items as [|item rest IH]; intros cov pre E.
  - by destruct pre.
  - simpl in E. destruct (admits cov item) eqn:Hadm; [|by apply IH].
    destruct pre as [|y pre]; simplify_eq/=.
    + unfold categories_of. simpl. by rewrite union_empty_l_L.
    + apply IH in H0. unfold categories_of in *. simpl.
      assert (∀ A B C : gset string, B ∪ A ∪ C = A ∪ (B ∪ C)) as Hset.
      { intros A B C. by rewrite (comm_L (∪) B A), <- (assoc_L (∪)). }
      by rewrite Hset.
Qed.

Lemma filter_by_diet_suits prefs items x :
  (∃ item, item ∈ items ∧ suits prefs item) →
  x ∈ filter_by_diet prefs items → suits prefs x.
Proof.
  intros (item & Hin & pref & Hpref & Hd).
  unfold filter_by_diet. destruct prefs as [|p prefs]; [by apply elem_of_nil in Hpref|].
  assert (∀ y, matches_diet (p :: prefs) y = true ↔ suits (p :: prefs) y) as Hm.
  { intros y. unfold matches_diet, suits. rewrite existsb_exists.
    split; intros (q & Hq & Hy); exists q.
    - split; [by apply list_elem_of_In|by apply bool_decide_eq_true in Hy].
    - split; [by apply list_elem_of_In|by apply bool_decide_eq_true]. }
  destruct (List.filter (matches_diet (p :: prefs)) items) as [|y l] eqn:E.
  - exfalso. assert (item ∈ List.filter (matches_diet (p :: prefs)) items) as H.
    { apply list_elem_of_In, filter_In. split; [by apply list_elem_of_In|].
      apply Hm. by exists pref. }
    rewrite E in H. by apply elem_of_nil in H.
  - rewrite <- E. intros Hx. apply list_elem_of_In, filter_In in Hx as [_ Hx].
    by apply Hm.
Qed.

End SelectorFacts.

(** X1: the cap only cuts the selection: the suggestions under a cap are
    the first ones of the suggestions under any larger cap. *)
Theorem suggestions_grow_with_the_cap :
  ∀ (catalog : list MenuItem) (event_details : gmap string pyval)
    (small large : Z),
    (small ≤ large)%Z →
    suggest_menu_items catalog event_details small
    `prefix_of` suggest_menu_items catalog event_details large.
Proof.
  intros catalog event_details small large Hle.
  rewrite !SelectorFacts.suggest_menu_items_admitted.
  replace (Z.to_nat large)
    with (Z.to_nat small + (Z.to_nat large - Z.to_nat small)) by lia.
  set (l := admitted _ _). rewrite <- take_take_drop. by eexists.
Qed.

Lemma suggestions_grow_with_the_cap_witness :
  (2 ≤ 4)%Z
  ∧ suggest_menu_items mock_items ∅ 2
    `prefix_of` suggest_menu_items mock_items ∅ 4.
Proof.
  assert (2 ≤ 4)%Z as H by lia.
  split; [exact H|].
  exact (suggestions_grow_with_the_cap mock_items ∅ 2 4 H).
Defined.

(** X2: an item whose category is already among the suggestions made before
    it is suggested only while fewer than three categories are covered. *)
Theorem repeated_category_only_below_three :
  ∀ (catalog : list MenuItem) (event_details : gmap string pyval)
    (max_items : Z) (before : list MenuItem) (item : MenuItem)
    (after : list MenuItem),
    suggest_menu_items catalog event_details max_items
    = before ++ item :: after →
    category_of item ∈ categories_of before →
    size (categories_of before) < 3.
Proof.
  intros catalog event_details max_items before item after E Hin.
  rewrite SelectorFacts.suggest_menu_items_admitted in E.
  set (l := admitted _ _) in E.
  assert (l = before ++ item :: (after ++ drop (Z.to_nat max_items) l)) as El.
  { rewrite <- (take_drop (Z.to_nat max_items) l) at 1. rewrite E.
    by rewrite <- app_assoc. }
  apply SelectorFacts.admitted_split in El. rewrite union_empty_r_L in El.
  unfold admits in El. apply orb_true_iff in El as [Hsize|Hnew].
  - by apply Nat.ltb_lt.
  - apply negb_true_iff, bool_decide_eq_false in Hnew. done.
Qed.

Lemma repeated_category_only_below_three_witness :
  let third := default (example_item "" "") (mock_items !! 2) in
  suggest_menu_items mock_items ∅ 6
  = take 2 mock_items ++ third :: take 1 (drop 3 mock_items)
  ∧ category_of third ∈ categories_of (take 2 mock_items)
  ∧ size (categories_of (take 2 mock_items)) < 3.
Proof.
  intros third.
  assert (suggest_menu_items mock_items ∅ 6
          = take 2 mock_items ++ third :: take 1 (drop 3 mock_items)) as E
    by (by vm_compute).
  assert (category_of third ∈ categories_of (take 2 mock_items)) as Hin
    by compute_done.
  split_and!; [exact E|exact Hin|].
  exact (repeated_category_only_below_three mock_items ∅ 6 _ _ _ E Hin).
Defined.

(** X3: when at least one catalog item carries one of the dietary
    preferences of the profile, every suggestion carries one. *)
Theorem suggestions_respect_the_diet :
  ∀ (catalog : list MenuItem) (event_details : gmap string pyval)
    (max_items : Z) (item : MenuItem),
    (∃ some, some ∈ catalog
             ∧ suits (dict_get_list event_details "dietaryPreferences") some) →
    item ∈ suggest_menu_items catalog event_details max_items →
    suits (dict_get_list event_details "dietaryPreferences") item.
Proof.
  intros catalog event_details max_items item Hsome Hin.
  rewrite MenuFacts.suggest_menu_items_unfold in Hin.
  apply (SelectorFacts.filter_by_diet_suits _ catalog); [done|].
  eapply elem_of_sublist; [exact Hin|].
  etrans; [apply MenuFacts.py_slice_to_sublist|].
  destruct (MenuFacts.variety_loop_shape max_items
              (filter_by_diet
                 (dict_get_list event_details "dietaryPreferences") catalog)
              [] ∅) as (chosen & -> & Hc).
  done.
Qed.

Lemma suggestions_respect_the_diet_witness :
  let vegan : gmap string pyval :=
    {[ "dietaryPreferences" := PList ["vegan"] ]} in
  let bowl := default (example_item "" "") (mock_items !! 2) in
  (∃ some, some ∈ mock_items
           ∧ suits (dict_get_list vegan "dietaryPreferences") some)
  ∧ bowl ∈ suggest_menu_items mock_items vegan 6
  ∧ suits (dict_get_list vegan "dietaryPreferences") bowl.
Proof.
  intros vegan bowl.
  assert (suits (dict_get_list vegan "dietaryPreferences") bowl) as Hbowl.
  { exists "vegan". split; compute_done. }
  assert (∃ some, some ∈ mock_items
                  ∧ suits (dict_get_list vegan "dietaryPreferences") some)
    as Hsome.
  { exists bowl. split; [compute_done|exact Hbowl]. }
  assert (bowl ∈ suggest_menu_items mock_items vegan 6) as Hin
    by compute_done.
  split_and!; [exact Hsome|exact Hin|].
  exact (suggestions_respect_the_diet mock_items vegan 6 bowl Hsome Hin).
Defined.

(** ** Field extraction, continued *)

Module CountFacts.
Import Str StrFacts Re ReFacts.












Lemma run_class_nil p g : run (Class p) ("", g) = [].
Proof. reflexivity. Qed.
















End CountFacts.







(** X8: the generic default reply is given exactly when none of the
    thirteen keywords of the four groups occurs in the lower-cased
    message. *)
Theorem default_reply_iff_no_keyword :
  ∀ user_message,
    fallback_default ≠ fallback_greeting
    ∧ fallback_default ≠ fallback_birthday
    ∧ fallback_default ≠ fallback_theme
    ∧ fallback_default ≠ fallback_menu
    ∧ (_get_fallback_response user_message = fallback_default
       ↔ ∀ kw,
           kw ∈ ["hello"; "hi"; "start"; "help"; "birthday"; "bday";
                 "theme"; "decoration"; "decor"; "menu"; "food"; "eat";
                 "dietary"] →
           ¬ Str.occurs_in kw (Str.lower user_message)).
Proof.
  intros user_message.
  assert (∀ words, Str.any_in words (Str.lower user_message) = false
                   ↔ ∀ kw, kw ∈ words
                           → ¬ Str.occurs_in kw (Str.lower user_message))
    as Hany.
  { intros words. rewrite <- not_true_iff_false, StrFacts.any_in_spec.
    split; [|intros H (kw & ? & ?); by eapply H].
    intros H kw ??. apply H. by exists kw. }
  assert (fallback_default ≠ fallback_greeting) as D1 by discriminate.
  assert (fallback_default ≠ fallback_birthday) as D2 by discriminate.
  assert (fallback_default ≠ fallback_theme) as D3 by discriminate.
  assert (fallback_default ≠ fallback_menu) as D4 by discriminate.
  split_and!; [done..|].
  unfold _get_fallback_response.
  change (fallback_responses "greeting") with fallback_greeting.
  change (fallback_responses "birthday") with fallback_birthday.
  change (fallback_responses "theme") with fallback_theme.
  change (fallback_responses "menu") with fallback_menu.
  change (fallback_responses "default") with fallback_default.
  split.
  - destruct (Str.any_in ["hello"; "hi"; "start"; "help"] _) eqn:E1;
      [by intros ?|].
    destruct (Str.any_in ["birthday"; "bday"] _) eqn:E2; [by intros ?|].
    destruct (Str.any_in ["theme"; "decoration"; "decor"] _) eqn:E3;
      [by intros ?|].
    destruct (Str.any_in ["menu"; "food"; "eat"; "dietary"] _) eqn:E4;
      [by intros ?|].
    intros _ kw Hkw. rewrite Hany in E1, E2, E3, E4.
    change ["hello"; "hi"; "start"; "help"; "birthday"; "bday"; "theme";
            "decoration"; "decor"; "menu"; "food"; "eat"; "dietary"]
      with (["hello"; "hi"; "start"; "help"] ++ ["birthday"; "bday"]
            ++ ["theme"; "decoration"; "decor"]
            ++ ["menu"; "food"; "eat"; "dietary"]) in Hkw.
    rewrite !elem_of_app in Hkw.
    destruct Hkw as [?|[?|[?|?]]]; auto.
  - intros Hnone.
    assert (∀ words,
              words `sublist_of`
                ["hello"; "hi"; "start"; "help"; "birthday"; "bday"; "theme";
                 "decoration"; "decor"; "menu"; "food"; "eat"; "dietary"] →
              Str.any_in words (Str.lower user_message) = false) as Hsub.
    { intros words Hw. apply Hany. intros kw Hkw. apply Hnone.
      by eapply elem_of_sublist. }
    rewrite !Hsub; [done|..].
    + change ["hello"; "hi"; "start"; "help"; "birthday"; "bday"; "theme";
              "decoration"; "decor"; "menu"; "food"; "eat"; "dietary"]
        with (["hello"; "hi"; "start"; "help"; "birthday"; "bday"; "theme";
               "decoration"; "decor"] ++ ["menu"; "food"; "eat"; "dietary"]).
      apply sublist_inserts_l. done.
    + change ["hello"; "hi"; "start"; "help"; "birthday"; "bday"; "theme";
              "decoration"; "decor"; "menu"; "food"; "eat"; "dietary"]
        with (["hello"; "hi"; "start"; "help"; "birthday"; "bday"]
              ++ (["theme"; "decoration"; "decor"]
                  ++ ["menu"; "food"; "eat"; "dietary"])).
      apply sublist_inserts_l, sublist_inserts_r. done.
    + change ["hello"; "hi"; "start"; "help"; "birthday"; "bday"; "theme";
              "decoration"; "decor"; "menu"; "food"; "eat"; "dietary"]
        with (["hello"; "hi"; "start"; "help"]
              ++ (["birthday"; "bday"]
                  ++ ["theme"; "decoration"; "decor"; "menu"; "food"; "eat";
                      "dietary"])).
      apply sublist_inserts_l, sublist_inserts_r. done.
    + change ["hello"; "hi"; "start"; "help"; "birthday"; "bday"; "theme";
              "decoration"; "decor"; "menu"; "food"; "eat"; "dietary"]
        with (["hello"; "hi"; "start"; "help"]
              ++ ["birthday"; "bday"; "theme"; "decoration"; "decor"; "menu";
                  "food"; "eat"; "dietary"]).
      apply sublist_inserts_r. done.
Qed.

(** ** Prompt composition and generation, continued *)

Module WindowFacts.

Lemma menu_section_window (menu_items : option (list MenuItem)) :
  menu_section menu_items
  = match take 10 (default [] menu_items) with
    | [] => Some []
    | shown =>
        lines ← mapM menu_line shown;
        Some ((nl +:+ "AVAILABLE MENU ITEMS:") :: lines)
    end.
Proof. by destruct menu_items as [[|item rest]|]. Qed.



Lemma menu_section_missing_category (menu_items : list MenuItem) item :
  item ∈ take 10 menu_items → category item = None →
  menu_section (Some menu_items) = None.
Proof.
  intros Hin Hcat. rewrite menu_section_window.
  change (default [] (Some menu_items)) with menu_items.
  destruct (take 10 menu_items) as [|x l] eqn:E;
    [by apply elem_of_nil in Hin|].
  destruct (mapM menu_line (x :: l)) as [lines|] eqn:Hm; [|done].
  exfalso. apply mk_is_Some, mapM_is_Some in Hm.
  rewrite Forall_forall in Hm. destruct (Hm item Hin) as [line Hline].
  unfold menu_line in Hline. simpl in Hline. by rewrite Hcat in Hline.
Qed.

End WindowFacts.



(** X10: a catalog item without a category among the first ten makes the
    construction of the prompt fail; [generate_response] then answers with
    the fallback reply and records nothing, even though a chat handle is
    there and the provider would answer. *)
Theorem missing_category_ends_in_fallback :
  ∀ (json_dumps : gmap string pyval → string) (self : AIEventAssistant)
    (send_message : string → option string) (now : nat)
    (user_message : string) (menu_items : list MenuItem)
    (context : option (gmap string pyval)) (item : MenuItem),
    item ∈ take 10 menu_items → category item = None →
    _build_enhanced_prompt json_dumps self user_message (Some menu_items)
      context = None
    ∧ generate_response json_dumps self send_message now user_message
        (Some menu_items) context
      = (_get_fallback_response user_message, self).
Proof.
  intros json_dumps self send_message now user_message menu_items context
    item Hin Hcat.
  assert (_build_enhanced_prompt json_dumps self user_message
            (Some menu_items) context = None) as Hprompt.
  { unfold _build_enhanced_prompt.
    by rewrite (WindowFacts.menu_section_missing_category _ item). }
  split; [done|]. apply SessionFacts.generate_response_failure. right.
  by rewrite Hprompt.
Qed.

Lemma missing_category_ends_in_fallback_witness :
  let bare := {| item_id := "9"; name := "Soup of the day"; category := None;
                 ingredients := []; dietType := None; price := "4.5";
                 imageURL := "" |} in
  let self := {| chat := Some GeminiChat; conversation_history := [] |} in
  bare ∈ take 10 [bare] ∧ category bare = None
  ∧ generate_response (λ _, "{}") self (λ _, Some "Sure!") 0 "menu ideas"
      (Some [bare]) None
    = (fallback_menu, self).
Proof.
  intros bare self.
  assert (bare ∈ take 10 [bare]) as Hin by (simpl; by left).
  split_and!; [exact Hin|reflexivity|].
  exact (proj2 (missing_category_ends_in_fallback (λ _, "{}") self
                  (λ _, Some "Sure!") 0 "menu ideas" [bare] None bare Hin
                  eq_refl)).
Defined.

(** X11: a call of [generate_response] keeps the chat handle and never
    touches the exchanges already recorded: either it returns the fallback
    reply and leaves the assistant as it was, or it appends exactly one
    exchange, made of the message and of the reply it returns. *)
Theorem generate_response_only_appends :
  ∀ (json_dumps : gmap string pyval → string) (self : AIEventAssistant)
    (send_message : string → option string) (now : nat)
    (user_message : string) (menu_items : option (list MenuItem))
    (context : option (gmap string pyval)),
    let result :=
      generate_response json_dumps self send_message now user_message
        menu_items context in
    chat result.2 = chat self
    ∧ conversation_history self `prefix_of` conversation_history result.2
    ∧ (result = (_get_fallback_response user_message, self)
       ∨ (chat self ≠ None
          ∧ conversation_history result.2
            = conversation_history self
              ++ [{| user := user_message; assistant := result.1;
                     timestamp := now |}])).
Proof.
  intros json_dumps self send_message now user_message menu_items context.
  unfold generate_response. destruct (chat self) as [handle|] eqn:Hchat.
  - destruct (_ ≫= send_message) as [response_text|]; simpl.
    + split_and!; [done|by eexists|]. by right.
    + split_and!; [done|done|by left].
  - simpl. split_and!; [done|done|by left].
Qed.

(** ** The chat page, continued *)

Module PageFacts.




End PageFacts.






(** ** Saved events and their statistics *)

Module StatsFacts.

Lemma bump_keys c creators c' :
  c' ∈ (bump c creators).*1 ↔ c' = c ∨ c' ∈ creators.*1.
Proof.
  induction creators as [|[k n] rest IH]; simpl.
  - rewrite elem_of_cons, elem_of_nil. tauto.
  - destruct (decide (k = c)) as [->|Hne]; simpl.
    + rewrite elem_of_cons. tauto.
    + rewrite !elem_of_cons, IH. tauto.
Qed.

Lemma bump_NoDup c creators :
  NoDup creators.*1 → NoDup (bump c creators).*1.
Proof.
  induction creators as [|[k n] rest IH]; simpl; intros Hnd.
  - apply NoDup_singleton.
  - destruct (decide (k = c)) as [->|Hne]; simpl; [done|].
    apply NoDup_cons in Hnd as [Hk Hnd]. apply NoDup_cons. split; [|auto].
    rewrite bump_keys. intros [->|?]; done.
Qed.

Lemma bump_positive c creators :
  Forall (λ p, 1 ≤ p.2) creators → Forall (λ p, 1 ≤ p.2) (bump c creators).
Proof.
  induction creators as [|[k n] rest IH]; simpl; intros Hpos.
  - repeat constructor.
  - apply Forall_cons in Hpos as [Hn Hpos].
    destruct (decide (k = c)); constructor; simpl in *; auto; lia.
Qed.

Lemma bump_sum c creators :
  sum_list (bump c creators).*2 = S (sum_list creators.*2).
Proof.
  induction creators as [|[k n] rest IH]; [done|].
  assert (Hcons : ∀ x (l : list nat), sum_list (x :: l) = x + sum_list l)
    by done.
  cbn [bump]. destruct (decide (k = c)); rewrite !fmap_cons, !Hcons; cbn [snd].
  - lia.
  - rewrite IH. lia.
Qed.

Lemma count_of_cons k n rest c :
  count_of ((k, n) :: rest) c = if decide (k = c) then n else count_of rest c.
Proof.
  unfold count_of. simpl. by repeat case_decide; case_bool_decide.
Qed.

Lemma count_of_bump c creators c' :
  count_of (bump c creators) c'
  = if decide (c = c') then S (count_of creators c')
    else count_of creators c'.
Proof.
  induction creators as [|[k n] rest IH]; simpl.
  - rewrite count_of_cons. by destruct (decide (c = c')).
  - destruct (decide (k = c)) as [->|Hne]; rewrite !count_of_cons.
    + destruct (decide (c = c')); lia.
    + rewrite IH. destruct (decide (k = c')) as [->|?]; [|done].
      by destruct (decide (c = c')) as [->|?].
Qed.

Lemma count_of_elem creators c n :
  NoDup creators.*1 → (c, n) ∈ creators → count_of creators c = n.
Proof.
  induction creators as [|[k m] rest IH]; simpl; intros Hnd Hin.
  - by apply elem_of_nil in Hin.
  - apply NoDup_cons in Hnd as [Hk Hnd]. rewrite count_of_cons.
    apply elem_of_cons in Hin as [[= <- <-]|Hin].
    + by rewrite decide_True.
    + rewrite decide_False; [auto|]. intros ->. apply Hk.
      by apply (list_elem_of_fmap_2 fst _ (c, n)).
Qed.

Lemma count_of_absent creators c :
  c ∉ creators.*1 → count_of creators c = 0.
Proof.
  induction creators as [|[k m] rest IH]; simpl; intros Hnot; [done|].
  rewrite count_of_cons. rewrite not_elem_of_cons in Hnot.
  destruct Hnot as [Hne Hnot]. rewrite decide_False by done. auto.
Qed.

Lemma events_by_cons c e events :
  events_by c (e :: events)
  = if decide (creator_of e = c) then S (events_by c events)
    else events_by c events.
Proof.
  unfold events_by. simpl. by case_bool_decide; case_decide.
Qed.

(** What the counting loop computes when no creator is refused. *)
Lemma count_creators_spec events acc creators :
  count_creators events acc = Some creators →
  NoDup acc.*1 → Forall (λ p, 1 ≤ p.2) acc →
  NoDup creators.*1
  ∧ Forall (λ p, 1 ≤ p.2) creators
  ∧ (∀ c, count_of creators c = count_of acc c + events_by c events)
  ∧ sum_list creators.*2 = sum_list acc.*2 + length events.
Proof.
  revert acc. induction events as [|e events IH]; simpl; intros acc Hc Hnd Hpos.
  - injection Hc as <-. split_and!; [done|done| |lia].
    intros c. unfold events_by. simpl. lia.
  - destruct (hashable (creator_of e)); [|done].
    destruct (IH _ Hc) as (Hnd' & Hpos' & Hcount & Hsum).
    { by apply bump_NoDup. } { by apply bump_positive. }
    split_and!; [done|done| |].
    + intros c. rewrite Hcount, count_of_bump, events_by_cons.
      destruct (decide (creator_of e = c)); lia.
    + rewrite Hsum, bump_sum. lia.
Qed.

Lemma count_creators_some events acc :
  is_Some (count_creators events acc)
  ↔ Forall (λ e, hashable (creator_of e) = true) events.
Proof.
  revert acc. induction events as [|e events IH]; simpl; intros acc.
  - split; [constructor|eauto].
  - rewrite Forall_cons. destruct (hashable (creator_of e)).
    + rewrite IH. tauto.
    + split; [intros [? [=]]|intros [[=] _]].
Qed.

Lemma insert_by_count_perm x l : insert_by_count x l ≡ₚ x :: l.
Proof.
  induction l as [|y l IH]; simpl; [done|].
  destruct (x.2 <? y.2)%nat; [|done]. rewrite IH. apply Permutation_swap.
Qed.

Lemma sorted_by_count_perm l : sorted_by_count l ≡ₚ l.
Proof.
  induction l as [|x l IH]; simpl; [done|].
  by rewrite insert_by_count_perm, IH.
Qed.

Lemma insert_by_count_sorted x l :
  StronglySorted by_count l → StronglySorted by_count (insert_by_count x l).
Proof.
  induction 1 as [|y l Hl IH Hy]; simpl.
  - repeat constructor.
  - destruct (Nat.ltb_spec x.2 y.2) as [Hlt|Hge].
    + constructor; [done|].
      rewrite insert_by_count_perm. constructor; [unfold by_count; lia|done].
    + constructor; [by constructor|].
      constructor; [done|].
      eapply Forall_impl; [exact Hy|]. unfold by_count. intros z. simpl. lia.
Qed.

Lemma sorted_by_count_sorted l : StronglySorted by_count (sorted_by_count l).
Proof.
  induction l as [|x l IH]; simpl; [constructor|].
  by apply insert_by_count_sorted.
Qed.

(** The sort is stable: entries of equal count keep their order. *)
Lemma insert_by_count_ties n x l :
  List.filter (λ p, p.2 =? n)%nat (insert_by_count x l)
  = List.filter (λ p, p.2 =? n)%nat (x :: l).
Proof.
  induction l as [|y l IH]; [done|].
  cbn [insert_by_count].
  destruct (Nat.ltb_spec x.2 y.2) as [Hlt|Hge]; [|done].
  cbn [List.filter] in *. rewrite IH.
  destruct (Nat.eqb_spec x.2 n), (Nat.eqb_spec y.2 n); done || lia.
Qed.

Lemma sorted_by_count_ties n l :
  List.filter (λ p, p.2 =? n)%nat (sorted_by_count l)
  = List.filter (λ p, p.2 =? n)%nat l.
Proof.
  induction l as [|x l IH]; [done|].
  cbn [sorted_by_count foldr]. rewrite insert_by_count_ties.
  cbn [List.filter]. fold (sorted_by_count l). by rewrite IH.
Qed.

Lemma sum_take_le n (l : list nat) : sum_list (take n l) ≤ sum_list l.
Proof.
  revert n. induction l as [|x l IH]; intros [|n]; simpl; try lia.
  specialize (IH n). lia.
Qed.

Lemma filter_length_le {A} (P : A → bool) l :
  length (List.filter P l) ≤ length l.
Proof. induction l as [|x l IH]; simpl; [done|]. destruct (P x); simpl; lia. Qed.

Lemma filter_app_length {A} (P : A → bool) l x :
  length (List.filter P (l ++ [x]))
  = length (List.filter P l) + (if P x then 1 else 0).
Proof.
  rewrite List.filter_app, length_app. simpl. by destruct (P x).
Qed.

(** The statistics when every creator can be counted. *)
Lemma get_event_stats_counted _db now mock_events :
  let events := get_events _db mock_events None in
  Forall (λ e, hashable (creator_of e) = true) events →
  ∃ creators,
    count_creators events [] = Some creators
    ∧ get_event_stats _db now mock_events
      = {| total_events := length events;
           top_creators := take 5 (sorted_by_count creators);
           this_month :=
             length
               (List.filter (λ e, _is_this_month now (e !! "timestamp"))
                  events) |}.
Proof.
  intros events Hall. apply (count_creators_some _ []) in Hall as [cs Hcs].
  exists cs. split; [done|]. unfold get_event_stats. fold events.
  by rewrite Hcs.
Qed.

Lemma get_event_stats_refused _db now mock_events :
  let events := get_events _db mock_events None in
  ¬ Forall (λ e, hashable (creator_of e) = true) events →
  get_event_stats _db now mock_events
  = {| total_events := 0; top_creators := []; this_month := 0 |}.
Proof.
  intros events Hnot. unfold get_event_stats. fold events.
  destruct (count_creators events []) eqn:Hcs; [|done].
  exfalso. apply Hnot. apply (count_creators_some _ []). eauto.
Qed.

Lemma hashable_dec events :
  Decision (Forall (λ e : gmap string evval, hashable (creator_of e) = true)
              events).
Proof. apply Forall_dec. intros e. apply _. Qed.

Lemma bump_keys_eq c creators :
  (bump c creators).*1
  = if decide (c ∈ creators.*1) then creators.*1 else creators.*1 ++ [c].
Proof.
  induction creators as [|[k n] rest IH]; [done|].
  cbn [bump]. destruct (decide (k = c)) as [->|Hne]; rewrite !fmap_cons.
  - cbn [fst]. rewrite decide_True; [done|]. apply elem_of_cons. by left.
  - rewrite IH. cbn [fst]. destruct (decide (c ∈ rest.*1)) as [Hin|Hout].
    + rewrite decide_True; [done|]. apply elem_of_cons. by right.
    + rewrite decide_False; [done|]. rewrite elem_of_cons. intros [->|?]; done.
Qed.

Lemma count_creators_keys events acc creators :
  count_creators events acc = Some creators →
  creators.*1
  = foldl (λ seen creator,
             if decide (creator ∈ seen) then seen else seen ++ [creator])
      acc.*1 (creator_of <$> events).
Proof.
  revert acc. induction events as [|e events IH]; simpl; intros acc Hc.
  - by injection Hc as <-.
  - destruct (hashable (creator_of e)); [|done].
    rewrite (IH _ Hc). by rewrite bump_keys_eq.
Qed.

Lemma pairs_of_keys (f : evval → nat) (l : list (evval * nat)) :
  Forall (λ p, p.2 = f p.1) l → l = (λ c, (c, f c)) <$> l.*1.
Proof.
  induction 1 as [|[c n] l Hp Hl IH]; [done|].
  rewrite !fmap_cons. simpl in *. by rewrite <- IH, Hp.
Qed.

Lemma filter_pairs (f : evval → nat) n (l : list evval) :
  (List.filter (λ p : evval * nat, p.2 =? n)%nat ((λ c, (c, f c)) <$> l)).*1
  = List.filter (λ c, f c =? n)%nat l.
Proof.
  induction l as [|c l IH]; [done|].
  rewrite fmap_cons. cbn [List.filter snd].
  destruct (f c =? n)%nat; [rewrite fmap_cons; cbn [fst]|]; by rewrite IH.
Qed.

Lemma filter_take_prefix {A} (P : A → bool) k (l : list A) :
  List.filter P (take k l) `prefix_of` List.filter P l.
Proof.
  exists (List.filter P (drop k l)).
  by rewrite <- List.filter_app, take_drop.
Qed.

End StatsFacts.

Ltac lookup_field :=
  repeat (rewrite lookup_insert_ne by done); apply lookup_insert_eq.

(** X16: In demo mode, an event saved from the sidebar form comes back from
    [get_events] as the last event, after those saved before and whatever
    creator is asked for; it carries the form's date, name and notes, the
    time of saving, the last five chat messages at most, and every other
    field of the profile; the name entered becomes the session's. *)
Theorem sidebar_save_is_read_back
    st mock_events event_date creator_name additional_notes now created_by :
  current_event_details st ≠ ∅ →
  let after :=
    submit_save_form None st mock_events event_date creator_name
      additional_notes now in
  ∃ event shown,
    get_events None after.2 created_by
    = get_events None mock_events None ++ [event]
    ∧ user_name after.1 = creator_name
    ∧ event !! "date" = Some (EVal (PStr event_date))
    ∧ event !! "createdBy" = Some (EVal (PStr creator_name))
    ∧ event !! "additionalNotes" = Some (EVal (PStr additional_notes))
    ∧ event !! "timestamp" = Some (ETime now)
    ∧ event !! "chatHistory" = Some (EChat shown)
    ∧ shown `suffix_of` chat_history st
    ∧ length shown = Nat.min 5 (length (chat_history st))
    ∧ ∀ key,
        key ∉ ["date"; "createdBy"; "additionalNotes"; "chatHistory";
               "timestamp"] →
        event !! key = EVal <$> current_event_details st !! key.
Proof.
  intros Hdetails after. subst after. unfold submit_save_form.
  rewrite decide_False by done. cbn [save_event fst snd get_events].
  eexists _, (py_last 5 (chat_history st)). split; [reflexivity|].
  unfold build_event_data. split_and!; [done|lookup_field..| | |].
  - apply PromptFacts.py_last_suffix.
  - apply PromptFacts.py_last_length.
  - intros key Hkey. rewrite !not_elem_of_cons in Hkey.
    destruct Hkey as (? & ? & ? & ? & ? & _).
    rewrite !lookup_insert_ne by done. apply lookup_fmap.
Qed.

Lemma sidebar_save_is_read_back_witness :
  ∃ event shown,
    get_events None
      (submit_save_form None
         {| chat_history := []; current_event_details := empty_event_details;
            user_name := "Event Planner" |}
         [] "2025-01-31" "Asha" "" {| year := 2025; month := 1; day := 2;
                                      seconds := 0 |}).2
      (Some "Someone else")
    = get_events None [] None ++ [event]
    ∧ event !! "createdBy" = Some (EVal (PStr "Asha"))
    ∧ event !! "chatHistory" = Some (EChat shown)
    ∧ length shown = 0.
Proof.
  destruct (sidebar_save_is_read_back
              {| chat_history := []; current_event_details := empty_event_details;
                 user_name := "Event Planner" |}
              [] "2025-01-31" "Asha" ""
              {| year := 2025; month := 1; day := 2; seconds := 0 |}
              (Some "Someone else"))
    as (event & shown & Hget & _ & _ & Hby & _ & _ & Hchat & _ & Hlen & _).
  - intros Hempty.
    by apply (f_equal (λ d : gmap string pyval, d !! "theme")) in Hempty.
  - exists event, shown. by split_and!.
Defined.

(** X17: [top_creators] holds at most five entries, of distinct creators,
    and the number beside a creator is exactly the number of events of that
    creator, at least one. *)
Theorem top_creators_are_true_counts _db now mock_events :
  let events := get_events _db mock_events None in
  let top := top_creators (get_event_stats _db now mock_events) in
  length top ≤ 5
  ∧ NoDup top.*1
  ∧ ∀ creator n, (creator, n) ∈ top → n = events_by creator events ∧ 1 ≤ n.
Proof.
  intros events top. subst top.
  destruct (StatsFacts.hashable_dec events) as [Hall|Hnot].
  - destruct (StatsFacts.get_event_stats_counted _db now mock_events Hall)
      as (creators & Hcount & ->). cbn [top_creators].
    destruct (StatsFacts.count_creators_spec _ _ _ Hcount)
      as (Hnd & Hpos & Hof & _); [constructor|constructor|].
    assert (Hsub : take 5 (sorted_by_count creators)
                   ⊆ creators).
    { intros p Hp. rewrite <- (StatsFacts.sorted_by_count_perm creators).
      by eapply elem_of_sublist; [|apply sublist_take]. }
    split_and!.
    + rewrite length_take. lia.
    + rewrite fmap_take.
      apply (sublist_NoDup _ (sorted_by_count creators).*1);
        [|apply sublist_take].
      by rewrite StatsFacts.sorted_by_count_perm.
    + intros creator n Hin. apply Hsub in Hin. split.
      * rewrite <- (StatsFacts.count_of_elem creators creator n) by done.
        by rewrite Hof.
      * rewrite Forall_forall in Hpos. by apply (Hpos (creator, n)).
  - rewrite (StatsFacts.get_event_stats_refused _db now mock_events Hnot).
    cbn [top_creators]. split_and!; [simpl; lia|constructor|].
    intros ?? Hin. by apply elem_of_nil in Hin.
Qed.

(** X18: [top_creators] is in decreasing order of count, and no creator
    left out of it has more events than a creator listed. *)
Theorem top_creators_lead _db now mock_events :
  let events := get_events _db mock_events None in
  let top := top_creators (get_event_stats _db now mock_events) in
  StronglySorted (λ x y : evval * nat, y.2 ≤ x.2) top
  ∧ ∀ creator listed n,
      creator ∉ top.*1 → (listed, n) ∈ top → events_by creator events ≤ n.
Proof.
  intros events top. subst top.
  destruct (StatsFacts.hashable_dec events) as [Hall|Hnot].
  - destruct (StatsFacts.get_event_stats_counted _db now mock_events Hall)
      as (creators & Hcount & ->). cbn [top_creators].
    destruct (StatsFacts.count_creators_spec _ _ _ Hcount)
      as (Hnd & Hpos & Hof & _); [constructor|constructor|].
    pose proof (StatsFacts.sorted_by_count_sorted creators) as Hsorted.
    pose proof (StatsFacts.sorted_by_count_perm creators) as Hperm.
    rewrite <- (take_drop 5 (sorted_by_count creators)) in Hsorted.
    split; [by apply StronglySorted_app_1_l in Hsorted|].
    intros creator listed n Hout Hin.
    destruct (decide (creator ∈ creators.*1)) as [Hknown|Hnew].
    + apply list_elem_of_fmap in Hknown as ([c k] & -> & Hk). simpl in *.
      rewrite <- (StatsFacts.count_of_elem creators c k), Hof in * by done.
      rewrite <- Hperm, <- (take_drop 5 (sorted_by_count creators)) in Hk.
      apply elem_of_app in Hk as [Hk|Hk].
      * destruct Hout. apply (list_elem_of_fmap_2 fst _ _ Hk).
      * simpl.
        apply (StronglySorted_app_1_elem_of _ _ _ _ _ Hsorted Hin Hk).
    + specialize (Hof creator).
      rewrite (StatsFacts.count_of_absent _ _ Hnew) in Hof. simpl in Hof.
      subst events. lia.
  - rewrite (StatsFacts.get_event_stats_refused _db now mock_events Hnot).
    cbn [top_creators]. split; [constructor|].
    intros ??? _ Hin. by apply elem_of_nil in Hin.
Qed.

(** X19: The counts listed in [top_creators] never add up to more than
    [total_events], and they add up to it when fewer than five creators
    are listed. *)
Theorem creator_counts_add_up _db now mock_events :
  let stats := get_event_stats _db now mock_events in
  sum_list (top_creators stats).*2 ≤ total_events stats
  ∧ (length (top_creators stats) < 5 →
     sum_list (top_creators stats).*2 = total_events stats).
Proof.
  intros stats. subst stats.
  destruct (StatsFacts.hashable_dec (get_events _db mock_events None))
    as [Hall|Hnot].
  - destruct (StatsFacts.get_event_stats_counted _db now mock_events Hall)
      as (creators & Hcount & ->). cbn [top_creators total_events].
    destruct (StatsFacts.count_creators_spec _ _ _ Hcount)
      as (_ & _ & _ & Hsum); [constructor|constructor|]. simpl in Hsum.
    assert (Hall' : sum_list (sorted_by_count creators).*2
                    = length (get_events _db mock_events None)).
    { by rewrite StatsFacts.sorted_by_count_perm. }
    split.
    + rewrite fmap_take, <- Hall'. apply StatsFacts.sum_take_le.
    + intros Hfew. rewrite length_take in Hfew.
      rewrite take_ge by lia. done.
  - rewrite (StatsFacts.get_event_stats_refused _db now mock_events Hnot).
    done.
Qed.

(** X20: [this_month] never exceeds [total_events], and it looks at the
    number of the month only: read in the same month of another year, the
    statistics count the same events. *)
Theorem this_month_ignores_the_year _db now later mock_events :
  month later = month now →
  this_month (get_event_stats _db later mock_events)
  = this_month (get_event_stats _db now mock_events)
  ∧ this_month (get_event_stats _db now mock_events)
    ≤ total_events (get_event_stats _db now mock_events).
Proof.
  intros Hmonth. unfold get_event_stats.
  destruct (count_creators (get_events _db mock_events None) []);
    cbn [this_month total_events]; [|done].
  split; [|apply StatsFacts.filter_length_le].
  f_equal. apply List.filter_ext. intros e. unfold _is_this_month.
  by rewrite Hmonth.
Qed.

Lemma this_month_ignores_the_year_witness :
  this_month
    (get_event_stats None
       {| year := 2026; month := 3; day := 9; seconds := 0 |}
       [ {["timestamp" :=
             ETime {| year := 2024; month := 3; day := 1; seconds := 7 |}]} ])
  = 1.
Proof.
  etrans.
  - apply (this_month_ignores_the_year None
             {| year := 2024; month := 3; day := 1; seconds := 7 |}
             {| year := 2026; month := 3; day := 9; seconds := 0 |}).
    reflexivity.
  - vm_compute. reflexivity.
Defined.

(** X21: The statistics are all zero exactly when there is no event or when
    the creator of some event is a list, which cannot be counted. *)
Theorem statistics_are_zero_iff _db now mock_events :
  let events := get_events _db mock_events None in
  get_event_stats _db now mock_events = no_stats
  ↔ events = [] ∨ Exists (λ e, hashable (creator_of e) = false) events.
Proof.
  intros events.
  destruct (StatsFacts.hashable_dec events) as [Hall|Hnot].
  - destruct (StatsFacts.get_event_stats_counted _db now mock_events Hall)
      as (creators & Hcount & ->). fold events in Hcount |- *. split.
    + intros [= Hlen _ _]. left. by apply nil_length_inv.
    + intros [Hnil|Hbad].
      * rewrite Hnil in Hcount |- *. by injection Hcount as <-.
      * apply Exists_exists in Hbad as (e & He & Hbad).
        rewrite Forall_forall in Hall. apply Hall in He. congruence.
  - rewrite (StatsFacts.get_event_stats_refused _db now mock_events Hnot).
    split; [intros _|done]. right.
    apply not_Forall_Exists in Hnot; [|intros e; apply _].
    eapply Exists_impl; [exact Hnot|]. intros e. simpl.
    by destruct (hashable (creator_of e)).
Qed.

(** X22: In demo mode, where every earlier event has a creator that can
    be counted, saving an event from the sidebar form raises [total_events]
    by one, and [this_month] by one when the statistics are read in a month
    of the same number as the month of saving. *)
Theorem saved_event_is_counted
    st mock_events event_date creator_name additional_notes now today :
  current_event_details st ≠ ∅ →
  Forall (λ e, hashable (creator_of e) = true) mock_events →
  month now = month today →
  let saved :=
    (submit_save_form None st mock_events event_date creator_name
       additional_notes now).2 in
  total_events (get_event_stats None today saved)
  = S (total_events (get_event_stats None today mock_events))
  ∧ this_month (get_event_stats None today saved)
    = S (this_month (get_event_stats None today mock_events)).
Proof.
  intros Hdetails Hall Hmonth saved. subst saved. unfold submit_save_form.
  rewrite decide_False by done. cbn [save_event snd].
  set (event := build_event_data _ _ _ _ _).
  assert (Hstamp : event !! "timestamp" = Some (ETime now))
    by (unfold event, build_event_data; lookup_field).
  assert (Hby : creator_of event = EVal (PStr creator_name)).
  { unfold creator_of.
    replace (event !! "createdBy") with (Some (EVal (PStr creator_name)));
      [done|].
    symmetry. unfold event, build_event_data. lookup_field. }
  assert (Hall' : Forall (λ e, hashable (creator_of e) = true)
                    (mock_events ++ [event])).
  { apply Forall_app. split; [done|]. constructor; [|done]. by rewrite Hby. }
  destruct (StatsFacts.get_event_stats_counted None today _ Hall)
    as (creators & _ & ->).
  destruct (StatsFacts.get_event_stats_counted None today _ Hall')
    as (creators' & _ & ->).
  cbn [total_events this_month get_events]. split.
  - rewrite length_app. simpl. lia.
  - rewrite StatsFacts.filter_app_length, Hstamp. cbn [_is_this_month].
    rewrite Hmonth, Nat.eqb_refl. lia.
Qed.

Lemma saved_event_is_counted_witness :
  total_events
    (get_event_stats None
       {| year := 2026; month := 3; day := 9; seconds := 0 |}
       (submit_save_form None
          {| chat_history := [];
             current_event_details := empty_event_details;
             user_name := "Event Planner" |}
          [] "2025-03-31" "Asha" ""
          {| year := 2025; month := 3; day := 2; seconds := 0 |}).2)
  = 1.
Proof.
  apply (saved_event_is_counted
           {| chat_history := [];
              current_event_details := empty_event_details;
              user_name := "Event Planner" |}
           [] "2025-03-31" "Asha" ""
           {| year := 2025; month := 3; day := 2; seconds := 0 |}
           {| year := 2026; month := 3; day := 9; seconds := 0 |}).
  - intros Hempty.
    by apply (f_equal (λ d : gmap string pyval, d !! "theme")) in Hempty.
  - constructor.
  - reflexivity.
Defined.

(** X23: Creators listed in [top_creators] with the same count stand in the
    order in which the events first name them: they are the first creators
    of that count, in first-seen order. *)
Theorem ties_keep_first_seen_order _db now mock_events n :
  let events := get_events _db mock_events None in
  let top := top_creators (get_event_stats _db now mock_events) in
  (List.filter (λ p : evval * nat, p.2 =? n)%nat top).*1
  `prefix_of`
  List.filter (λ creator, events_by creator events =? n)%nat
    (first_seen events).
Proof.
  intros events top. subst top events.
  destruct (StatsFacts.hashable_dec (get_events _db mock_events None))
    as [Hall|Hnot].
  - destruct (StatsFacts.get_event_stats_counted _db now mock_events Hall)
      as (creators & Hcount & ->). cbn [top_creators].
    destruct (StatsFacts.count_creators_spec _ _ _ Hcount)
      as (Hnd & _ & Hof & _); [constructor|constructor|].
    assert (Hpairs :
      creators
      = (λ c, (c, events_by c (get_events _db mock_events None)))
        <$> first_seen (get_events _db mock_events None)).
    { replace (first_seen (get_events _db mock_events None))
        with creators.*1
        by exact (StatsFacts.count_creators_keys _ [] creators Hcount).
      apply StatsFacts.pairs_of_keys, Forall_forall. intros [c k] Hin.
      simpl. rewrite <- (StatsFacts.count_of_elem creators c k) by done.
      by rewrite Hof. }
    rewrite <- StatsFacts.filter_pairs, <- Hpairs.
    rewrite <- (StatsFacts.sorted_by_count_ties n creators).
    destruct (StatsFacts.filter_take_prefix
                (λ p : evval * nat, p.2 =? n)%nat 5 (sorted_by_count creators))
      as [rest ->].
    rewrite fmap_app. by eexists.
  - rewrite (StatsFacts.get_event_stats_refused _db now mock_events Hnot).
    apply prefix_nil.
Qed.
